(** * Issue tracker: the issue lifecycle, visibility and analytics of
      [app/api_server.py] over the tables of [app/models.py].

    The handlers are embedded as functions from the authenticated caller, the
    request and the store to a response, the store after the request and the
    events handed to the real-time channel.  Tables are lists of rows in
    table order; a [datetime] is an integer number of microseconds, and one
    request reads one clock value; Python's [float] arithmetic is carried
    out on exact rationals, and the two-decimal rounding of the reported
    averages is a separate last step ([py_round2]). *)

From Stdlib Require Import ZArith NArith QArith Qround Qabs List String Ascii Bool.
From Stdlib Require Import Lia Lqa DecimalString DecimalN.
Import ListNotations.
Local Open Scope string_scope.
Local Open Scope Z_scope.

(** ** The Python string and integer primitives the handlers call.
    Strings are sequences of ASCII characters. *)
Module Py.

(** [s.startswith(p)] *)
Definition startswith (s p : string) : bool := String.prefix p s.

(** [sub in s] *)
Fixpoint contains (s sub : string) : bool :=
  String.prefix sub s ||
  match s with
  | EmptyString => false
  | String _ s' => contains s' sub
  end.

(** [s.replace(old, new)] for a non-empty [old]: one pass from the left,
    every non-overlapping occurrence replaced, the output never rescanned.
    [skip] counts the characters of the occurrence just matched that are
    still to be dropped. *)
Fixpoint replace_from (old new : string) (skip : nat) (s : string) : string :=
  match s with
  | EmptyString => EmptyString
  | String c s' =>
      match skip with
      | S k => replace_from old new k s'
      | O =>
          if String.prefix old s
          then new ++ replace_from old new (String.length old - 1) s'
          else String c (replace_from old new 0 s')
      end
  end.

Definition replace (s old new : string) : string := replace_from old new 0 s.

Definition is_ascii_digit (c : ascii) : bool :=
  ((48 <=? nat_of_ascii c) && (nat_of_ascii c <=? 57))%nat.

Fixpoint all_digits (s : string) : bool :=
  match s with
  | EmptyString => true
  | String c s' => is_ascii_digit c && all_digits s'
  end.

(** [s.isdigit()]: false on the empty string. *)
Definition isdigit (s : string) : bool :=
  match s with
  | EmptyString => false
  | String _ _ => all_digits s
  end.

Fixpoint int_from (acc : N) (s : string) : N :=
  match s with
  | EmptyString => acc
  | String c s' => int_from (acc * 10 + (N_of_ascii c - 48))%N s'
  end.

(** [int(s)] on a string of decimal digits. *)
Definition int (s : string) : N := int_from 0%N s.

(** [str(n)] *)
Definition str (n : N) : string := NilZero.string_of_uint (N.to_uint n).

Fixpoint zeros (k : nat) : string :=
  match k with
  | O => EmptyString
  | S k' => String "0" (zeros k')
  end.

(** [f'{n:03d}']: at least three digits, zeros on the left. *)
Definition format_03d (n : N) : string :=
  let s := str n in zeros (3 - String.length s) ++ s.

(** [max(l)] of a non-empty list, written as the fold it performs. *)
Definition max (n : N) (l : list N) : N := fold_left N.max l n.

(** [s.split(sep)] for a one-character separator. *)
Fixpoint split (sep : ascii) (s : string) : list string :=
  match s with
  | EmptyString => [EmptyString]
  | String c s' =>
      if Ascii.eqb c sep then EmptyString :: split sep s'
      else match split sep s' with
           | [] => [String c EmptyString]
           | w :: ws => String c w :: ws
           end
  end.

(** [x in l] on a list of strings. *)
Definition mem (x : string) (l : list string) : bool :=
  existsb (String.eqb x) l.

(** Truth value of an optional string ([None] and [''] are false). *)
Definition truthy (o : option string) : bool :=
  match o with
  | None => false
  | Some s => negb (String.eqb s "")
  end.

End Py.

(** ** The tables of [models.py]. *)

(** A [datetime], in microseconds since the epoch (UTC). *)
Definition datetime := Z.

Module User.
Record t := {
  id : Z;
  user_id : string;
  name : string;
  service : string;   (* maintenance, production *)
  role : string;      (* technician, team_leader, supervisor, manager *)
  is_active : bool
}.
End User.

Module Machine.
Record t := {
  id : Z;
  machine_id : string;
  name : string;
  location : option string;
  status : string
}.
End Machine.

Module Issue.
Record t := {
  id : Z;
  issue_id : string;
  machine_id : string;
  description : string;
  urgency : string;
  status : string;
  reporter_id : Z;
  assigned_tech_id : option Z;
  created_at : datetime;
  accepted_at : option datetime;
  closed_at : option datetime;
  resolution : option string;
  problem_description : option string
}.

Definition set_status (v : string) (i : t) : t :=
  {| id := id i; issue_id := issue_id i; machine_id := machine_id i;
     description := description i; urgency := urgency i; status := v;
     reporter_id := reporter_id i; assigned_tech_id := assigned_tech_id i;
     created_at := created_at i; accepted_at := accepted_at i;
     closed_at := closed_at i; resolution := resolution i;
     problem_description := problem_description i |}.

Definition set_assigned_tech_id (v : option Z) (i : t) : t :=
  {| id := id i; issue_id := issue_id i; machine_id := machine_id i;
     description := description i; urgency := urgency i; status := status i;
     reporter_id := reporter_id i; assigned_tech_id := v;
     created_at := created_at i; accepted_at := accepted_at i;
     closed_at := closed_at i; resolution := resolution i;
     problem_description := problem_description i |}.

Definition set_accepted_at (v : option datetime) (i : t) : t :=
  {| id := id i; issue_id := issue_id i; machine_id := machine_id i;
     description := description i; urgency := urgency i; status := status i;
     reporter_id := reporter_id i; assigned_tech_id := assigned_tech_id i;
     created_at := created_at i; accepted_at := v;
     closed_at := closed_at i; resolution := resolution i;
     problem_description := problem_description i |}.

Definition set_closed_at (v : option datetime) (i : t) : t :=
  {| id := id i; issue_id := issue_id i; machine_id := machine_id i;
     description := description i; urgency := urgency i; status := status i;
     reporter_id := reporter_id i; assigned_tech_id := assigned_tech_id i;
     created_at := created_at i; accepted_at := accepted_at i;
     closed_at := v; resolution := resolution i;
     problem_description := problem_description i |}.

Definition set_resolution (v : option string) (i : t) : t :=
  {| id := id i; issue_id := issue_id i; machine_id := machine_id i;
     description := description i; urgency := urgency i; status := status i;
     reporter_id := reporter_id i; assigned_tech_id := assigned_tech_id i;
     created_at := created_at i; accepted_at := accepted_at i;
     closed_at := closed_at i; resolution := v;
     problem_description := problem_description i |}.

Definition set_problem_description (v : option string) (i : t) : t :=
  {| id := id i; issue_id := issue_id i; machine_id := machine_id i;
     description := description i; urgency := urgency i; status := status i;
     reporter_id := reporter_id i; assigned_tech_id := assigned_tech_id i;
     created_at := created_at i; accepted_at := accepted_at i;
     closed_at := closed_at i; resolution := resolution i;
     problem_description := v |}.
End Issue.

Module Note.
Record t := {
  id : Z;
  text : string;
  created_at : datetime;
  issue_id : Z;     (* the issue's primary key *)
  author_id : Z
}.
End Note.

(** The database: one list of rows per table, oldest row first. *)
Record Store := {
  users : list User.t;
  machines : list Machine.t;
  issues : list Issue.t;
  notes : list Note.t
}.

Definition with_issues (l : list Issue.t) (st : Store) : Store :=
  {| users := users st; machines := machines st; issues := l; notes := notes st |}.

Definition with_notes (l : list Note.t) (st : Store) : Store :=
  {| users := users st; machines := machines st; issues := issues st; notes := l |}.

(** The integer primary key the database gives a new row: one more than
    the largest key in use.  (SQLite does so while that key is below
    2^63 - 1; beyond, it picks an unused key at random.  What the theorems
    state about a new key is that it is not in use, which holds either
    way.) *)
Definition next_pk (taken : list Z) : Z := fold_left Z.max taken 0 + 1.

(** [Issue.query.filter_by(issue_id=issue_id).first()] *)
Definition first_issue (st : Store) (issue_id : string) : option Issue.t :=
  find (fun i => String.eqb (Issue.issue_id i) issue_id) (issues st).

(** Attribute writes on the row that [first()] returned, committed. *)
Fixpoint update_first {A : Type} (p : A -> bool) (f : A -> A) (l : list A) : list A :=
  match l with
  | [] => []
  | x :: r => if p x then f x :: r else x :: update_first p f r
  end.

Definition commit_issue (issue_id : string) (f : Issue.t -> Issue.t) (st : Store) : Store :=
  with_issues
    (update_first (fun i => String.eqb (Issue.issue_id i) issue_id) f (issues st)) st.

(** [db.session.add(Note(text=..., issue_id=issue.id, author_id=...))];
    [created_at] takes the column default, the time of the request. *)
Definition add_note_row (now : datetime) (text : string) (issue author : Z)
    (st : Store) : Store :=
  with_notes
    (notes st ++
       [ {| Note.id := next_pk (map Note.id (notes st)); Note.text := text;
            Note.created_at := now; Note.issue_id := issue;
            Note.author_id := author |} ]) st.

(** ** What the analytics endpoints report.  The breakdowns by status and
    by urgency of the dashboard are groupings of the issue table and are not
    part of the summary below. *)

Module Summary.
Record t := {
  total_issues : nat;
  open_issues : nat;
  high_priority : nat;
  avg_resolution_time_hours : Q;
  issues_today : nat
}.
End Summary.

Module TechRow.
Record t := {
  technician : User.t;
  assigned_issues : nat;
  closed_issues : nat;
  avg_resolution_time_hours : Q
}.
End TechRow.

(** ** Responses and lifecycle events. *)

Inductive Body :=
| error (msg : string)
| issue_message (message : string) (issue : Issue.t)
| note_message (message : string) (note : Note.t)
| issues_page (items : list (Issue.t * string)) (total : nat)
| dashboard (summary : Summary.t)
| technicians (rows : list TechRow.t).

(** What a view returns: the JSON body with its HTTP status. *)
Definition Response := (Body * Z)%type.

Inductive Event :=
| new_issue (i : Issue.t)
| issue_updated (i : Issue.t)
| issue_closed (i : Issue.t)
| note_added (issue_id : string) (n : Note.t).

Record Outcome := {
  response : Response;
  store : Store;
  emitted : list Event
}.

(** A view function once [token_required] has resolved the caller. *)
Definition Handler := User.t -> Store -> Outcome.

Definition reply (b : Body) (code : Z) (st : Store) : Outcome :=
  {| response := (b, code); store := st; emitted := [] |}.

(** The error taxonomy, as the handlers spell it. *)
Definition Forbidden (r : Response) : Prop := snd r = 403.
Definition InvalidTransition : Response :=
  (error "Issue cannot be assigned in current status", 400).
Definition AlreadyClosed : Response := (error "Issue is already closed", 400).

(** ** Access control. *)

(** The decorator [role_required]: the caller's role OR service is in the list. *)
Definition role_required (roles : list string) (f : Handler) : Handler :=
  fun current_user st =>
    if negb (Py.mem (User.role current_user) roles) &&
       negb (Py.mem (User.service current_user) roles)
    then reply (error "Insufficient permissions") 403 st
    else f current_user st.

(** The contract's [authorize(Principal, requiredRoles)]. *)
Definition authorize (p : User.t) (requiredRoles : list string) : bool :=
  Py.mem (User.role p) requiredRoles || Py.mem (User.service p) requiredRoles.

(** [issue.assigned_tech_id != current_user.id] *)
Definition not_assigned_to (issue : Issue.t) (u : User.t) : bool :=
  match Issue.assigned_tech_id issue with
  | None => true
  | Some t => negb (t =? User.id u)
  end.

(** ** Issue endpoints. *)

(** A JSON value as [create_issue] tells values apart: [null] or a
    string. *)
Inductive json :=
| JNull
| JString (s : string).

(** [value in allowed], for a list of strings. *)
Definition json_in (value : json) (allowed : list string) : bool :=
  match value with
  | JString s => Py.mem s allowed
  | JNull => false
  end.

(** The JSON body of [POST /issues]; [None] is an absent key, [Some JNull]
    a key given [null]. *)
Module NewIssue.
Record t := {
  machine_id : option json;
  description : option json;
  urgency : option json
}.
End NewIssue.

(** The scan of [create_issue] over [Issue.query.all()]. *)
Definition iss_numbers (all_issues : list Issue.t) : list N :=
  flat_map
    (fun issue =>
       if Py.startswith (Issue.issue_id issue) "ISS" then
         let num_str := Py.replace (Issue.issue_id issue) "ISS" "" in
         if Py.isdigit num_str then [Py.int num_str] else []
       else [])
    all_issues.

Definition new_issue_id (all_issues : list Issue.t) : string :=
  match iss_numbers all_issues with
  | n :: ns => "ISS" ++ Py.format_03d (Py.max n ns + 1)
  | [] => "ISS001"
  end.

(** The columns [machine_id] and [description] are [nullable=False]: with
    [null] for either the commit raises, and [internal_error] rolls the
    session back and answers 500. *)
Definition create_issue (now : datetime) (data : NewIssue.t) : Handler :=
  role_required ["production"; "supervisor"; "team_leader"]
    (fun current_user st =>
       match NewIssue.machine_id data, NewIssue.description data,
             NewIssue.urgency data with
       | Some machine_id, Some description, Some urgency =>
           if negb (json_in urgency ["low"; "medium"; "high"])
           then reply (error "Invalid urgency level") 400 st
           else
             match machine_id, description, urgency with
             | JString m, JString d, JString u =>
                 let issue :=
                   {| Issue.id := next_pk (map Issue.id (issues st));
                      Issue.issue_id := new_issue_id (issues st);
                      Issue.machine_id := m;
                      Issue.description := d;
                      Issue.urgency := u;
                      Issue.status := "reported";
                      Issue.reporter_id := User.id current_user;
                      Issue.assigned_tech_id := None;
                      Issue.created_at := now;
                      Issue.accepted_at := None;
                      Issue.closed_at := None;
                      Issue.resolution := None;
                      Issue.problem_description := None |} in
                 {| response := (issue_message "Issue created successfully" issue, 201);
                    store := with_issues (issues st ++ [issue]) st;
                    emitted := [new_issue issue] |}
             | _, _, _ => reply (error "Internal server error") 500 st
             end
       | _, _, _ => reply (error "Missing required fields") 400 st
       end).

(** The three attribute writes of [assign_issue]. *)
Definition accept (tech : Z) (now : datetime) (issue : Issue.t) : Issue.t :=
  Issue.set_accepted_at (Some now)
    (Issue.set_status "assigned"
       (Issue.set_assigned_tech_id (Some tech) issue)).

Definition assign_issue (now : datetime) (issue_id : string) : Handler :=
  role_required ["maintenance"; "supervisor"; "team_leader"]
    (fun current_user st =>
       match first_issue st issue_id with
       | None => reply (error "Issue not found") 404 st
       | Some issue =>
           if negb (Py.mem (Issue.status issue) ["reported"; "assigned"])
           then reply (error "Issue cannot be assigned in current status") 400 st
           else
             let st1 := commit_issue issue_id (accept (User.id current_user) now) st in
             let st2 := add_note_row now "Issue accepted and assigned"
                          (Issue.id issue) (User.id current_user) st1 in
             let issue' := accept (User.id current_user) now issue in
             {| response := (issue_message "Issue assigned successfully" issue', 200);
                store := st2;
                emitted := [issue_updated issue'] |}
       end).

Definition valid_statuses : list string :=
  ["reported"; "assigned"; "in_progress"; "closed"].

Definition invalid_status : Body :=
  error "Invalid status. Must be one of: reported, assigned, in_progress, closed".

(** [PATCH /issues/:id/status]; [new_status] is [data.get('status')]. *)
Definition update_issue_status (now : datetime) (issue_id : string)
    (new_status : option string) : Handler :=
  fun current_user st =>
    match first_issue st issue_id with
    | None => reply (error "Issue not found") 404 st
    | Some issue =>
        if String.eqb (User.role current_user) "production"
        then reply (error "Production users cannot update status") 403 st
        else if String.eqb (User.role current_user) "maintenance" &&
                not_assigned_to issue current_user
        then reply (error "You can only update your assigned issues") 403 st
        else
          match new_status with
          | None => reply invalid_status 400 st
          | Some s =>
              if negb (Py.mem s valid_statuses)
              then reply invalid_status 400 st
              else
                let st1 := commit_issue issue_id (Issue.set_status s) st in
                let st2 := add_note_row now ("Status changed to " ++ s)
                             (Issue.id issue) (User.id current_user) st1 in
                let issue' := Issue.set_status s issue in
                {| response := (issue_message "Status updated successfully" issue', 200);
                   store := st2;
                   emitted := [issue_updated issue'] |}
          end
    end.

(** The attribute writes of [close_issue]. *)
Definition closing (now : datetime) (resolution : string)
    (problem_description : option string) (issue : Issue.t) : Issue.t :=
  let closed :=
    Issue.set_resolution (Some resolution)
      (Issue.set_closed_at (Some now) (Issue.set_status "closed" issue)) in
  if Py.truthy problem_description
  then Issue.set_problem_description problem_description closed
  else closed.

(** [POST /issues/:id/close]; the two options are [data.get('resolution')]
    and [data.get('problem_description')]. *)
Definition close_issue (now : datetime) (issue_id : string)
    (resolution problem_description : option string) : Handler :=
  role_required ["maintenance"; "supervisor"; "team_leader"]
    (fun current_user st =>
       match first_issue st issue_id with
       | None => reply (error "Issue not found") 404 st
       | Some issue =>
           if String.eqb (Issue.status issue) "closed"
           then reply (error "Issue is already closed") 400 st
           else if String.eqb (User.role current_user) "maintenance" &&
                   not_assigned_to issue current_user
           then reply (error "You can only close your assigned issues") 403 st
           else
             match resolution with
             | None => reply (error "Resolution is required") 400 st
             | Some r =>
                 if String.eqb r ""
                 then reply (error "Resolution is required") 400 st
                 else
                   let st1 := commit_issue issue_id (closing now r problem_description) st in
                   let st2 := add_note_row now ("Issue closed. Resolution: " ++ r)
                                (Issue.id issue) (User.id current_user) st1 in
                   let issue' := closing now r problem_description issue in
                   {| response := (issue_message "Issue closed successfully" issue', 200);
                      store := st2;
                      emitted := [issue_closed issue'] |}
             end
       end).

(** [POST /issues/:id/notes]; [text] is [data.get('text')]. *)
Definition add_note (now : datetime) (issue_id : string) (text : option string) : Handler :=
  fun current_user st =>
    match first_issue st issue_id with
    | None => reply (error "Issue not found") 404 st
    | Some issue =>
        if String.eqb (User.role current_user) "production" &&
           negb (Issue.reporter_id issue =? User.id current_user)
        then reply (error "Access denied") 403 st
        else
          match text with
          | None => reply (error "Note text is required") 400 st
          | Some t =>
              if String.eqb t ""
              then reply (error "Note text is required") 400 st
              else
                let note :=
                  {| Note.id := next_pk (map Note.id (notes st)); Note.text := t;
                     Note.created_at := now; Note.issue_id := Issue.id issue;
                     Note.author_id := User.id current_user |} in
                {| response := (note_message "Note added successfully" note, 201);
                   store := add_note_row now t (Issue.id issue) (User.id current_user) st;
                   emitted := [note_added (Issue.issue_id issue) note] |}
          end
    end.

(** ** Listing: [GET /issues]. *)

(** The query string.  [page] and [per_page] are the integers
    [request.args.get(..., type=int)] yields (defaults 1 and 10); [date] is
    the midnight of the day the [date] parameter names, [None] when the
    parameter is absent or is not a [%Y-%m-%d] date. *)
Module Args.
Record t := {
  status : option string;
  urgency : option string;
  machine_id : option string;
  page : Z;
  per_page : Z;
  date : option datetime
}.
End Args.

(** A row of the query: the issue and the name of its machine. *)
Definition Row := (Issue.t * string)%type.

(** [query(Issue, Machine.name).join(Machine, Issue.machine_id == Machine.machine_id)] *)
Definition join_machine (st : Store) : list Row :=
  flat_map
    (fun i =>
       map (fun m => (i, Machine.name m))
         (filter (fun m => String.eqb (Issue.machine_id i) (Machine.machine_id m))
            (machines st)))
    (issues st).

Definition role_filter (current_user : User.t) (query : list Row) : list Row :=
  if String.eqb (User.service current_user) "production"
  then filter (fun r => Issue.reporter_id (fst r) =? User.id current_user) query
  else if String.eqb (User.service current_user) "maintenance"
  then query
  else query.

(** [if param: query = query.filter(...)] *)
Definition when_given (param : option string)
    (f : string -> list Row -> list Row) (query : list Row) : list Row :=
  match param with
  | None => query
  | Some v => if String.eqb v "" then query else f v query
  end.

Definition status_filter (status : string) (query : list Row) : list Row :=
  if Py.contains status ","
  then filter (fun r => Py.mem (Issue.status (fst r)) (Py.split "," status)) query
  else filter (fun r => String.eqb (Issue.status (fst r)) status) query.

Definition one_day : Z := 86400000000.

Definition date_filter (date : option datetime) (query : list Row) : list Row :=
  match date with
  | None => query
  | Some filter_date =>
      filter (fun r => (filter_date <=? Issue.created_at (fst r)) &&
                       (Issue.created_at (fst r) <? filter_date + one_day)) query
  end.

Definition urgency_order (urgency : string) : Z :=
  if String.eqb urgency "high" then 1
  else if String.eqb urgency "medium" then 2
  else if String.eqb urgency "low" then 3
  else 4.

(** [order_by(Issue.created_at.desc(), urgency_order)]; rows equal on both
    keys keep their table order. *)
Definition row_before (a b : Row) : bool :=
  (Issue.created_at (fst b) <? Issue.created_at (fst a)) ||
  ((Issue.created_at (fst a) =? Issue.created_at (fst b)) &&
   (urgency_order (Issue.urgency (fst a)) <=? urgency_order (Issue.urgency (fst b)))).

Fixpoint insert_row (r : Row) (l : list Row) : list Row :=
  match l with
  | [] => [r]
  | x :: t => if row_before r x then r :: x :: t else x :: insert_row r t
  end.

Definition order_by (l : list Row) : list Row := fold_right insert_row [] l.

(** [paginate(page, per_page, error_out=False)]: an invalid page is page 1,
    an invalid page size is 20. *)
Definition paginate (page per_page : Z) (l : list Row) : list Row :=
  let page := if page <? 1 then 1 else page in
  let per_page := if per_page <? 1 then 20 else per_page in
  firstn (Z.to_nat per_page) (skipn (Z.to_nat ((page - 1) * per_page)) l).

(** The largest integer the database driver binds. *)
Definition max_int64 : Z := 2 ^ 63 - 1.

(** [LIMIT ? OFFSET ?] are bound as integers of 64 bits: the driver raises
    on a page size or an offset beyond them. *)
Definition out_of_range (page per_page : Z) : bool :=
  let page := if page <? 1 then 1 else page in
  let per_page := if per_page <? 1 then 20 else per_page in
  (max_int64 <? per_page) || (max_int64 <? (page - 1) * per_page).

(** The query of [get_issues] before ordering and pagination. *)
Definition issues_query (current_user : User.t) (args : Args.t) (st : Store) : list Row :=
  date_filter (Args.date args)
    (when_given (Args.machine_id args)
       (fun v => filter (fun r => String.eqb (Issue.machine_id (fst r)) v))
       (when_given (Args.urgency args)
          (fun v => filter (fun r => String.eqb (Issue.urgency (fst r)) v))
          (when_given (Args.status args) status_filter
             (role_filter current_user (join_machine st))))).

(** The response carries the page and the size of the whole result; the
    page counters derived from them are left out.  A page the driver cannot
    bind ends in [internal_error]. *)
Definition get_issues (args : Args.t) : Handler :=
  fun current_user st =>
    let query := issues_query current_user args st in
    if out_of_range (Args.page args) (Args.per_page args)
    then reply (error "Internal server error") 500 st
    else
      reply (issues_page
               (paginate (Args.page args) (Args.per_page args) (order_by query))
               (List.length query))
        200 st.

(** ** Analytics. *)

Local Open Scope Q_scope.

(** [timedelta.total_seconds()] of a difference of two datetimes. *)
Definition total_seconds (td : Z) : Q := td # 1000000.

(** [sum(l)] *)
Definition py_sum (l : list Q) : Q := fold_left Qplus l 0.

(** [round(x, 2)] on the exact value: the closest multiple of 1/100, a tie
    going to the even one.  (Python rounds the binary float, which can fall
    on the other side of such a tie.) *)
Definition round_half_even (q : Q) : Z :=
  let f := Qfloor q in
  match Qcompare (q - inject_Z f) (1 # 2) with
  | Lt => f
  | Gt => (f + 1)%Z
  | Eq => if Z.even f then f else (f + 1)%Z
  end.

Definition py_round2 (q : Q) : Q := round_half_even (q * (100 # 1)) # 100.

Definition len {A : Type} (l : list A) : Q := inject_Z (Z.of_nat (List.length l)).

Definition stamped_closed (i : Issue.t) : bool :=
  String.eqb (Issue.status i) "closed" &&
  match Issue.closed_at i with Some _ => true | None => false end.

(** Lines 959-968 of [analytics_dashboard].  The comprehension runs over
    rows the query kept, all of which carry [closed_at]. *)
Definition avg_resolution_time (st : Store) : Q :=
  let closed_issues := filter stamped_closed (issues st) in
  match closed_issues with
  | [] => 0
  | _ :: _ =>
      let total_time :=
        py_sum
          (flat_map
             (fun issue =>
                match Issue.closed_at issue with
                | Some closed_at =>
                    [total_seconds (closed_at - Issue.created_at issue) / (3600 # 1)]
                | None => []
                end)
             closed_issues) in
      total_time / len closed_issues
  end.

Definition count {A : Type} (p : A -> bool) (l : list A) : nat :=
  List.length (filter p l).

Definition analytics_dashboard (now : datetime) : Handler :=
  fun current_user st =>
    let today_start := (now - now mod one_day)%Z in
    reply
      (dashboard
         {| Summary.total_issues := List.length (issues st);
            Summary.open_issues :=
              count (fun i => negb (String.eqb (Issue.status i) "closed")) (issues st);
            Summary.high_priority :=
              count (fun i => String.eqb (Issue.urgency i) "high" &&
                              String.eqb (Issue.status i) "reported") (issues st);
            Summary.avg_resolution_time_hours := py_round2 (avg_resolution_time st);
            Summary.issues_today :=
              count (fun i => (today_start <=? Issue.created_at i)%Z) (issues st) |})
      200%Z st.

(** [filter_by(assigned_tech_id=tech.id)] *)
Definition assigned_to (tech : User.t) (i : Issue.t) : bool :=
  match Issue.assigned_tech_id i with
  | Some t => (t =? User.id tech)%Z
  | None => false
  end.

(** The average of [analytics_by_technician] for one technician. *)
Definition avg_time (st : Store) (tech : User.t) : Q :=
  let closed_issues :=
    filter (fun i => assigned_to tech i && stamped_closed i) (issues st) in
  match closed_issues with
  | [] => 0
  | _ :: _ =>
      let total_time :=
        py_sum
          (flat_map
             (fun issue =>
                match Issue.accepted_at issue, Issue.closed_at issue with
                | Some accepted_at, Some closed_at =>
                    [total_seconds (closed_at - accepted_at) / (3600 # 1)]
                | _, _ => []
                end)
             closed_issues) in
      total_time / len closed_issues
  end.

Definition technician_row (st : Store) (tech : User.t) : TechRow.t :=
  {| TechRow.technician := tech;
     TechRow.assigned_issues := count (assigned_to tech) (issues st);
     TechRow.closed_issues :=
       count (fun i => assigned_to tech i && String.eqb (Issue.status i) "closed")
         (issues st);
     TechRow.avg_resolution_time_hours := py_round2 (avg_time st tech) |}.

Definition analytics_by_technician : Handler :=
  role_required ["supervisor"; "team_leader"; "manager"; "maintenance"]
    (fun current_user st =>
       reply
         (technicians
            (map (technician_row st)
               (filter (fun u => String.eqb (User.service u) "maintenance" &&
                                 User.is_active u) (users st))))
         200%Z st).

Local Close Scope Q_scope.

(** ** The issue endpoints as one transition function.  The user and
    machine endpoints are left out; none of them gives an issue an id or a
    technician. *)

Inductive Request :=
| POST_issues (data : NewIssue.t)
| POST_assign (issue_id : string)
| PATCH_status (issue_id : string) (new_status : option string)
| POST_close (issue_id : string) (resolution problem_description : option string)
| POST_notes (issue_id : string) (text : option string)
| GET_issues (args : Args.t)
| GET_dashboard
| GET_by_technician.

Definition serve (now : datetime) (req : Request) : Handler :=
  match req with
  | POST_issues data => create_issue now data
  | POST_assign issue_id => assign_issue now issue_id
  | PATCH_status issue_id new_status => update_issue_status now issue_id new_status
  | POST_close issue_id resolution problem_description =>
      close_issue now issue_id resolution problem_description
  | POST_notes issue_id text => add_note now issue_id text
  | GET_issues args => get_issues args
  | GET_dashboard => analytics_dashboard now
  | GET_by_technician => analytics_by_technician
  end.

(** A run of the API from a store. *)
Fixpoint run (reqs : list (datetime * Request * User.t)) (st : Store) : Store :=
  match reqs with
  | [] => st
  | (now, req, u) :: rest => run rest (store (serve now req u st))
  end.

(** The [issues] field of a listing response. *)
Definition listing (out : Outcome) : list Row :=
  match fst (response out) with
  | issues_page items _ => items
  | _ => []
  end.

(** ** Store invariants of the tracker. *)

(** [s] without the prefix [p], when it starts with [p]. *)
Fixpoint strip_prefix (p s : string) : option string :=
  match p, s with
  | EmptyString, _ => Some s
  | String a p', String b s' => if Ascii.eqb a b then strip_prefix p' s' else None
  | String _ _, EmptyString => None
  end.

(** Sequence ids carry the prefix once: an id that starts with [ISS] has
    no further [ISS] after it.  True of [ISS] followed by digits, the only
    ids [create_issue] writes, and of the [TEST] ids of
    [utils/populate_data.py]. *)
Definition sequence_id_ok (id : string) : bool :=
  match strip_prefix "ISS" id with
  | Some rest => negb (Py.contains rest "ISS")
  | None => true
  end.

Definition tracker_ids (st : Store) : Prop :=
  forallb (fun i => sequence_id_ok (Issue.issue_id i)) (issues st) = true.

(** An issue that has a technician was accepted: [assign_issue] is the only
    writer of [assigned_tech_id] and stamps [accepted_at] with it. *)
Definition accepted_if_assigned (i : Issue.t) : bool :=
  match Issue.assigned_tech_id i, Issue.accepted_at i with
  | Some _, None => false
  | _, _ => true
  end.

Definition assigned_were_accepted (st : Store) : Prop :=
  forallb accepted_if_assigned (issues st) = true.

(** What a request can do to the issue table: nothing, append the issue
    [create_issue] builds, or rewrite one row with the attribute writes of
    assign, status update or close. *)
Inductive issue_write : (Issue.t -> Issue.t) -> Prop :=
| write_accept tech now : issue_write (accept tech now)
| write_status s : issue_write (Issue.set_status s)
| write_closing now r pd : issue_write (closing now r pd).

(** ** The specification's words, for comparison with the code. *)

(** The numeric suffix of an id that matches the prefix format:
    [ISS] followed by one or more decimal digits. *)
Definition numeric_suffix (id : string) : option N :=
  match strip_prefix "ISS" id with
  | Some digits => if Py.isdigit digits then Some (Py.int digits) else None
  | None => None
  end.

Definition numeric_suffixes (ids : list string) : list N :=
  flat_map (fun id => match numeric_suffix id with Some n => [n] | None => [] end) ids.

Fixpoint maximum (l : list N) : N :=
  match l with
  | [] => 0%N
  | n :: r => N.max n (maximum r)
  end.

(** Maximum numeric suffix plus one, zero-padded to three digits; the first
    id when no existing id matches. *)
Definition next_sequence_id (ids : list string) : string :=
  match numeric_suffixes ids with
  | [] => "ISS001"
  | ns => "ISS" ++ Py.format_03d (maximum ns + 1)
  end.

(** The explicit query filters of a listing, as one predicate on issues. *)
Definition given (param : option string) (test : string -> bool) : bool :=
  match param with
  | None => true
  | Some v => if String.eqb v "" then true else test v
  end.

Definition selected (args : Args.t) (i : Issue.t) : bool :=
  given (Args.status args)
    (fun v => if Py.contains v ","
              then Py.mem (Issue.status i) (Py.split "," v)
              else String.eqb (Issue.status i) v) &&
  given (Args.urgency args) (String.eqb (Issue.urgency i)) &&
  given (Args.machine_id args) (String.eqb (Issue.machine_id i)) &&
  match Args.date args with
  | None => true
  | Some day => (day <=? Issue.created_at i) && (Issue.created_at i <? day + one_day)
  end.

Local Open Scope Q_scope.

(** A duration between two datetimes, in hours. *)
Definition hours_between (t0 t1 : datetime) : Q := (t1 - t0) # 3600000000.

(** The arithmetic mean; 0 over no values. *)
Definition arithmetic_mean (l : list Q) : Q :=
  match l with
  | [] => 0
  | _ :: _ => fold_right Qplus 0 l / len l
  end.

(** [closed_at - created_at] over the issues with status [closed] and
    [closed_at] present. *)
Definition resolution_times (st : Store) : list Q :=
  flat_map
    (fun i =>
       if String.eqb (Issue.status i) "closed" then
         match Issue.closed_at i with
         | Some c => [hours_between (Issue.created_at i) c]
         | None => []
         end
       else [])
    (issues st).

(** [closed_at - accepted_at] over the technician's issues with status
    [closed] and [closed_at] present; the difference exists where
    [accepted_at] is present. *)
Definition handling_times (st : Store) (tech : User.t) : list Q :=
  flat_map
    (fun i =>
       if assigned_to tech i && String.eqb (Issue.status i) "closed" then
         match Issue.accepted_at i, Issue.closed_at i with
         | Some a, Some c => [hours_between a c]
         | _, _ => []
         end
       else [])
    (issues st).

(** The same issues measured from [created_at], the dashboard's metric. *)
Definition handling_times_from_creation (st : Store) (tech : User.t) : list Q :=
  flat_map
    (fun i =>
       if assigned_to tech i && String.eqb (Issue.status i) "closed" then
         match Issue.closed_at i with
         | Some c => [hours_between (Issue.created_at i) c]
         | None => []
         end
       else [])
    (issues st).

Local Close Scope Q_scope.

(** ** Sample data. *)

Module Sample.

Definition technician : User.t :=
  {| User.id := 2; User.user_id := "MNT001"; User.name := "Maintenance Tech";
     User.service := "maintenance"; User.role := "technician";
     User.is_active := true |}.

Definition colleague : User.t :=
  {| User.id := 3; User.user_id := "MNT002"; User.name := "Second Tech";
     User.service := "maintenance"; User.role := "technician";
     User.is_active := true |}.

(** The user [utils/create_user.py] creates. *)
Definition producer : User.t :=
  {| User.id := 4; User.user_id := "PROD001"; User.name := "Production User";
     User.service := "production"; User.role := "technician";
     User.is_active := true |}.

Definition supervisor : User.t :=
  {| User.id := 5; User.user_id := "SUP001"; User.name := "Supervisor";
     User.service := "maintenance"; User.role := "supervisor";
     User.is_active := true |}.

Definition press : Machine.t :=
  {| Machine.id := 1; Machine.machine_id := "MACH001"; Machine.name := "Press";
     Machine.location := None; Machine.status := "active" |}.

Definition issue (pk : Z) (issue_id status : string) (tech : option Z)
    (created : datetime) (accepted closed : option datetime) : Issue.t :=
  {| Issue.id := pk; Issue.issue_id := issue_id; Issue.machine_id := "MACH001";
     Issue.description := "Oil leak"; Issue.urgency := "high";
     Issue.status := status; Issue.reporter_id := 4;
     Issue.assigned_tech_id := tech; Issue.created_at := created;
     Issue.accepted_at := accepted; Issue.closed_at := closed;
     Issue.resolution := None; Issue.problem_description := Some "Seal worn" |}.

Definition db (l : list Issue.t) : Store :=
  {| users := [technician; colleague; producer; supervisor];
     machines := [press]; issues := l; notes := [] |}.

Definition hour : Z := 3600000000.

Definition no_filters : Args.t :=
  {| Args.status := None; Args.urgency := None; Args.machine_id := None;
     Args.page := 1; Args.per_page := 10; Args.date := None |}.

(** Seven issues [ISS001] .. [ISS007]. *)
Definition seven : list Issue.t :=
  map (fun k => issue (Z.of_N k) ("ISS" ++ Py.format_03d k) "reported" None 0 None None)
    [1; 2; 3; 4; 5; 6; 7]%N.

End Sample.

(** * The rest of the API *)

From Stdlib Require Import Sorted Permutation.

(** ** What a request to an issue endpoint can come to. *)

(** The row [create_issue] inserts. *)
Definition reported_issue (now : datetime) (u : User.t) (st : Store)
    (m d g : string) : Issue.t :=
  {| Issue.id := next_pk (map Issue.id (issues st));
     Issue.issue_id := new_issue_id (issues st);
     Issue.machine_id := m;
     Issue.description := d;
     Issue.urgency := g;
     Issue.status := "reported";
     Issue.reporter_id := User.id u;
     Issue.assigned_tech_id := None;
     Issue.created_at := now;
     Issue.accepted_at := None;
     Issue.closed_at := None;
     Issue.resolution := None;
     Issue.problem_description := None |}.

(** The outcomes of [serve]: an error or a read, which leave the store as
    it is, or one of the five committed writes, each with the guards it
    passed. *)
Inductive served (now : datetime) (u : User.t) (st : Store) : Outcome -> Prop :=
| served_error b code :
    400 <= code -> served now u st (reply b code st)
| served_read b :
    served now u st (reply b 200 st)
| served_created m d g :
    Py.mem g ["low"; "medium"; "high"] = true ->
    served now u st
      {| response := (issue_message "Issue created successfully"
                        (reported_issue now u st m d g), 201);
         store := with_issues (issues st ++ [reported_issue now u st m d g]) st;
         emitted := [new_issue (reported_issue now u st m d g)] |}
| served_assigned issue_id issue :
    first_issue st issue_id = Some issue ->
    Py.mem (Issue.status issue) ["reported"; "assigned"] = true ->
    served now u st
      {| response := (issue_message "Issue assigned successfully"
                        (accept (User.id u) now issue), 200);
         store := add_note_row now "Issue accepted and assigned"
                    (Issue.id issue) (User.id u)
                    (commit_issue issue_id (accept (User.id u) now) st);
         emitted := [issue_updated (accept (User.id u) now issue)] |}
| served_status issue_id issue s :
    first_issue st issue_id = Some issue ->
    Py.mem s valid_statuses = true ->
    served now u st
      {| response := (issue_message "Status updated successfully"
                        (Issue.set_status s issue), 200);
         store := add_note_row now ("Status changed to " ++ s)
                    (Issue.id issue) (User.id u)
                    (commit_issue issue_id (Issue.set_status s) st);
         emitted := [issue_updated (Issue.set_status s issue)] |}
| served_closed issue_id issue r pd :
    first_issue st issue_id = Some issue ->
    String.eqb (Issue.status issue) "closed" = false ->
    String.eqb r "" = false ->
    served now u st
      {| response := (issue_message "Issue closed successfully"
                        (closing now r pd issue), 200);
         store := add_note_row now ("Issue closed. Resolution: " ++ r)
                    (Issue.id issue) (User.id u)
                    (commit_issue issue_id (closing now r pd) st);
         emitted := [issue_closed (closing now r pd issue)] |}
| served_noted issue_id issue t :
    first_issue st issue_id = Some issue ->
    String.eqb t "" = false ->
    served now u st
      {| response := (note_message "Note added successfully"
                        {| Note.id := next_pk (map Note.id (notes st));
                           Note.text := t; Note.created_at := now;
                           Note.issue_id := Issue.id issue;
                           Note.author_id := User.id u |}, 201);
         store := add_note_row now t (Issue.id issue) (User.id u) st;
         emitted := [note_added (Issue.issue_id issue)
                       {| Note.id := next_pk (map Note.id (notes st));
                          Note.text := t; Note.created_at := now;
                          Note.issue_id := Issue.id issue;
                          Note.author_id := User.id u |}] |}.

(** ** Invariants of the issue table read off the handlers. *)

(** Status and urgency stay in the enumerations the handlers accept. *)
Definition issue_fields_ok (i : Issue.t) : bool :=
  Py.mem (Issue.status i) valid_statuses &&
  Py.mem (Issue.urgency i) ["low"; "medium"; "high"].

Definition fields_valid (st : Store) : Prop :=
  forallb issue_fields_ok (issues st) = true.

(** An issue with a technician is in [assigned], [in_progress] or [closed]. *)
Definition technician_status_ok (i : Issue.t) : bool :=
  match Issue.assigned_tech_id i with
  | Some _ => Py.mem (Issue.status i) ["assigned"; "in_progress"; "closed"]
  | None => true
  end.

Definition technicians_on_taken_issues (st : Store) : Prop :=
  forallb technician_status_ok (issues st) = true.

Definition is_status_update (req : Request) : bool :=
  match req with
  | PATCH_status _ _ => true
  | _ => false
  end.

Definition requests_of (reqs : list (datetime * Request * User.t)) : list Request :=
  map (fun r => snd (fst r)) reqs.

(** What the reporter filed: the columns no endpoint writes after creation. *)
Definition report_of (i : Issue.t) : Z * string * string * string * string * Z * datetime :=
  (Issue.id i, Issue.issue_id i, Issue.machine_id i, Issue.description i,
   Issue.urgency i, Issue.reporter_id i, Issue.created_at i).

(** ** Listing order, as a relation on rows: newer first, and among rows
    created at the same instant the more urgent first. *)
Definition newest_first (a b : Row) : Prop :=
  Issue.created_at (fst b) < Issue.created_at (fst a) \/
  (Issue.created_at (fst a) = Issue.created_at (fst b) /\
   urgency_order (Issue.urgency (fst a)) <= urgency_order (Issue.urgency (fst b))).

(** ** Single fetch: [GET /issues/:id]. *)

(** A JSON answer with its HTTP status: the payload, or the error message. *)
Definition Answer (A : Type) : Type := ((A + string) * Z)%type.

(** [self.notes.order_by(Note.created_at.asc())]; notes written at the same
    instant keep their table order. *)
Fixpoint insert_note (n : Note.t) (l : list Note.t) : list Note.t :=
  match l with
  | [] => [n]
  | x :: t =>
      if Note.created_at n <=? Note.created_at x
      then n :: x :: t else x :: insert_note n t
  end.

Definition notes_of (st : Store) (issue : Issue.t) : list Note.t :=
  fold_right insert_note []
    (filter (fun n => Note.issue_id n =? Issue.id issue) (notes st)).

(** The answer carries [issue.to_dict(include_notes=True)]: the row and its
    notes. *)
Definition get_issue (issue_id : string) (current_user : User.t) (st : Store)
    : Answer (Issue.t * list Note.t) :=
  match first_issue st issue_id with
  | None => (inr "Issue not found", 404)
  | Some issue =>
      if String.eqb (User.role current_user) "production" &&
         negb (Issue.reporter_id issue =? User.id current_user)
      then (inr "Access denied", 403)
      else (inl (issue, notes_of st issue), 200)
  end.

(** The roles [register] and [update_user] accept. *)
Definition valid_roles : list string :=
  ["technician"; "team_leader"; "supervisor"; "manager"].

Definition valid_services : list string := ["maintenance"; "production"].

(** ** Machine endpoints. *)

(** The decorator [role_required] on a view with another answer, over the
    tables [S] the view works on. *)
Definition role_gate {A S : Type} (roles : list string) (st : S)
    (f : User.t -> Answer A * S) (current_user : User.t) : Answer A * S :=
  if negb (Py.mem (User.role current_user) roles) &&
     negb (Py.mem (User.service current_user) roles)
  then ((inr "Insufficient permissions", 403), st)
  else f current_user.

Definition with_machines (l : list Machine.t) (st : Store) : Store :=
  {| users := users st; machines := l; issues := issues st; notes := notes st |}.

(** [Machine.query.filter_by(machine_id=machine_id).first()] *)
Definition first_machine (st : Store) (machine_id : string) : option Machine.t :=
  find (fun m => String.eqb (Machine.machine_id m) machine_id) (machines st).

(** [''.join(filter(str.isdigit, s))] *)
Fixpoint digits_of (s : string) : string :=
  match s with
  | EmptyString => EmptyString
  | String c s' =>
      if Py.is_ascii_digit c then String c (digits_of s') else digits_of s'
  end.

(** The numbers [create_machine] reads off the existing machine ids. *)
Definition machine_numbers (existing_machines : list Machine.t) : list N :=
  flat_map
    (fun m =>
       let num_str := digits_of (Machine.machine_id m) in
       if String.eqb num_str "" then [] else [Py.int num_str])
    existing_machines.

Definition first_machine_number (existing_machines : list Machine.t) : N :=
  match existing_machines with
  | [] => 1
  | _ :: _ =>
      match machine_numbers existing_machines with
      | n :: ns => Py.max n ns + 1
      | [] => 1
      end
  end%N.

Definition machine_id_of (n : N) : string := "MACH" ++ Py.format_03d n.

(** [while Machine.query.filter_by(machine_id=machine_id).first():
      next_num += 1].  A table of [k] machines stops the loop within [k]
    rounds; [fuel] is the number of rounds still allowed. *)
Fixpoint free_machine_number (fuel : nat) (st : Store) (next_num : N) : N :=
  match fuel with
  | O => next_num
  | S fuel' =>
      match first_machine st (machine_id_of next_num) with
      | Some _ => free_machine_number fuel' st (next_num + 1)
      | None => next_num
      end
  end.

(** The JSON body of [POST /machines]; [None] is an absent key. *)
Module NewMachine.
Record t := {
  name : option string;
  location : option string;
  status : option string
}.
End NewMachine.

(** [POST /machines].  The QR image written to disk afterwards is not part
    of the store and cannot fail the request. *)
Definition create_machine (data : NewMachine.t) (current_user : User.t)
    (st : Store) : Answer Machine.t * Store :=
  role_gate ["manager"; "supervisor"; "team_leader"] st
    (fun _ =>
       match NewMachine.name data with
       | None => ((inr "Machine name is required", 400), st)
       | Some name =>
           let next_num :=
             free_machine_number (S (List.length (machines st))) st
               (first_machine_number (machines st)) in
           let machine :=
             {| Machine.id := next_pk (map Machine.id (machines st));
                Machine.machine_id := machine_id_of next_num;
                Machine.name := name;
                Machine.location := NewMachine.location data;
                Machine.status :=
                  match NewMachine.status data with
                  | Some s => s
                  | None => "active"
                  end |} in
           ((inl machine, 201), with_machines (machines st ++ [machine]) st)
       end)
    current_user.

(** [db.session.delete(machine)] on the row that [first()] returned. *)
Fixpoint remove_first {A : Type} (p : A -> bool) (l : list A) : list A :=
  match l with
  | [] => []
  | x :: r => if p x then r else x :: remove_first p r
  end.

(** [DELETE /machines/:id] *)
Definition delete_machine (machine_id : string) (current_user : User.t)
    (st : Store) : Answer string * Store :=
  role_gate ["manager"] st
    (fun _ =>
       match first_machine st machine_id with
       | None => ((inr "Machine not found", 404), st)
       | Some _ =>
           ((inl "Machine deleted successfully", 200),
            with_machines
              (remove_first (fun m => String.eqb (Machine.machine_id m) machine_id)
                 (machines st)) st)
       end)
    current_user.

(** The JSON body of [PUT /machines/:id]; [None] is an absent key. *)
Module MachineUpdate.
Record t := {
  name : option string;
  location : option (option string);
  status : option string
}.
End MachineUpdate.

Definition or_keep {A : Type} (new : option A) (old : A) : A :=
  match new with
  | Some v => v
  | None => old
  end.

(** [PUT /machines/:id] *)
Definition update_machine (machine_id : string) (data : MachineUpdate.t)
    (current_user : User.t) (st : Store) : Answer Machine.t * Store :=
  role_gate ["manager"; "supervisor"; "team_leader"] st
    (fun _ =>
       match first_machine st machine_id with
       | None => ((inr "Machine not found", 404), st)
       | Some machine =>
           let change m :=
             {| Machine.id := Machine.id m;
                Machine.machine_id := Machine.machine_id m;
                Machine.name := or_keep (MachineUpdate.name data) (Machine.name m);
                Machine.location :=
                  or_keep (MachineUpdate.location data) (Machine.location m);
                Machine.status :=
                  or_keep (MachineUpdate.status data) (Machine.status m) |} in
           ((inl (change machine), 200),
            with_machines
              (update_first (fun m => String.eqb (Machine.machine_id m) machine_id)
                 change (machines st)) st)
       end)
    current_user.

(** ** Accounts: the users table with all its columns. *)

Module Account.
Record t := {
  user : User.t;
  matricule_number : option string;
  email : option string;
  password_hash : string;
  created_at : datetime
}.
End Account.

(** The columns declared [unique=True]: two rows collide when they agree on
    [user_id], or on a [matricule_number] or [email] that is not NULL. *)
Definition same_value (a b : option string) : bool :=
  match a, b with
  | Some x, Some y => String.eqb x y
  | _, _ => false
  end.

Definition collide (a b : Account.t) : bool :=
  String.eqb (User.user_id (Account.user a)) (User.user_id (Account.user b)) ||
  same_value (Account.matricule_number a) (Account.matricule_number b) ||
  same_value (Account.email a) (Account.email b).

(** The JSON body of [POST /auth/register]; [None] is an absent key. *)
Module Registration.
Record t := {
  user_id : option string;
  matricule_number : option string;
  name : option string;
  password : option string;
  service : option string;
  role : option string;
  email : option string
}.
End Registration.

(** [POST /auth/register].  [hashpw] is [bcrypt.hashpw] with the salt drawn
    for the request.  A commit that breaks a unique column raises; the
    request is then answered by the 500 handler, which rolls back. *)
Definition register (now : datetime) (hashpw : string -> string)
    (data : Registration.t) (table : list Account.t)
    : Answer Account.t * list Account.t :=
  match Registration.matricule_number data, Registration.name data,
        Registration.password data, Registration.service data,
        Registration.role data with
  | Some matricule, Some name, Some password, Some service, Some role =>
      let user_id :=
        match Registration.user_id data with
        | Some v => if String.eqb v "" then matricule else v
        | None => matricule
        end in
      if existsb (fun a => String.eqb (User.user_id (Account.user a)) user_id) table
      then ((inr "User ID already exists", 409), table)
      else if existsb (fun a => same_value (Account.matricule_number a) (Some matricule))
                table
      then ((inr "Matricule number already exists", 409), table)
      else if Py.truthy (Registration.email data) &&
              existsb (fun a => same_value (Account.email a) (Registration.email data))
                table
      then ((inr "Email already exists", 409), table)
      else if negb (Py.mem service valid_services)
      then ((inr "Invalid service. Must be one of: maintenance, production", 400), table)
      else if negb (Py.mem role valid_roles)
      then ((inr "Invalid role. Must be one of: technician, team_leader, supervisor, manager",
             400), table)
      else
        let new_user :=
          {| Account.user :=
               {| User.id := next_pk (map (fun a => User.id (Account.user a)) table);
                  User.user_id := user_id;
                  User.name := name;
                  User.service := service;
                  User.role := role;
                  User.is_active := true |};
             Account.matricule_number := Some matricule;
             Account.email := Registration.email data;
             Account.password_hash := hashpw password;
             Account.created_at := now |} in
        if existsb (collide new_user) table
        then ((inr "Internal server error", 500), table)
        else ((inl new_user, 201), (table ++ [new_user])%list)
  | _, _, _, _, _ => ((inr "Missing required fields", 400), table)
  end.

(** The JSON body of [PUT /users/:id]; [None] is an absent key, and a
    present [email] or [matricule_number] may be [null]. *)
Module AccountUpdate.
Record t := {
  name : option string;
  service : option string;
  role : option string;
  email : option (option string);
  matricule_number : option (option string);
  is_active : option bool
}.
End AccountUpdate.

(** [data[key] and data[key] != old and <another row has data[key]>] *)
Definition taken_by_another (new : option (option string)) (old : option string)
    (column : Account.t -> option string) (table : list Account.t) : bool :=
  match new with
  | Some (Some v) =>
      negb (String.eqb v "") &&
      negb (same_value (Some v) old) &&
      existsb (fun a => same_value (column a) (Some v)) table
  | _ => false
  end.

Definition given_invalid (value : option string) (allowed : list string) : bool :=
  match value with
  | Some v => negb (Py.mem v allowed)
  | None => false
  end.

Definition updated_account (data : AccountUpdate.t) (a : Account.t) : Account.t :=
  {| Account.user :=
       {| User.id := User.id (Account.user a);
          User.user_id := User.user_id (Account.user a);
          User.name := or_keep (AccountUpdate.name data) (User.name (Account.user a));
          User.service :=
            or_keep (AccountUpdate.service data) (User.service (Account.user a));
          User.role := or_keep (AccountUpdate.role data) (User.role (Account.user a));
          User.is_active :=
            or_keep (AccountUpdate.is_active data) (User.is_active (Account.user a)) |};
     Account.matricule_number :=
       or_keep (AccountUpdate.matricule_number data) (Account.matricule_number a);
     Account.email := or_keep (AccountUpdate.email data) (Account.email a);
     Account.password_hash := Account.password_hash a;
     Account.created_at := Account.created_at a |}.

(** [PUT /users/:id].  The attribute writes made before a failed check are
    never committed. *)
Definition update_user (user_id : string) (data : AccountUpdate.t)
    (current_user : User.t) (table : list Account.t)
    : Answer Account.t * list Account.t :=
  role_gate ["manager"] table
    (fun _ =>
       let is_target a := String.eqb (User.user_id (Account.user a)) user_id in
       match find is_target table with
       | None => ((inr "User not found", 404), table)
       | Some user =>
           if given_invalid (AccountUpdate.service data) valid_services
           then ((inr "Invalid service", 400), table)
           else if given_invalid (AccountUpdate.role data) valid_roles
           then ((inr "Invalid role", 400), table)
           else if taken_by_another (AccountUpdate.email data) (Account.email user)
                     Account.email table
           then ((inr "Email already exists", 409), table)
           else if taken_by_another (AccountUpdate.matricule_number data)
                     (Account.matricule_number user) Account.matricule_number table
           then ((inr "Matricule number already exists", 409), table)
           else
             if existsb (collide (updated_account data user))
                  (remove_first is_target table)
             then ((inr "Internal server error", 500), table)
             else ((inl (updated_account data user), 200),
                   update_first is_target (updated_account data) table)
       end)
    current_user.

(** Accounts carry a service and a role of the two enumerations. *)
Definition account_ok (a : Account.t) : bool :=
  Py.mem (User.service (Account.user a)) valid_services &&
  Py.mem (User.role (Account.user a)) valid_roles.

Definition accounts_valid (table : list Account.t) : Prop :=
  forallb account_ok table = true.

(** What [update_user] never writes. *)
Definition identity_of (a : Account.t) : Z * string * string * datetime :=
  (User.id (Account.user a), User.user_id (Account.user a),
   Account.password_hash a, Account.created_at a).

(** ** Rollup by machine: [GET /analytics/by-machine]. *)

Module MachineRow.
Record t := {
  machine_id : string;
  machine_name : string;
  total_issues : nat;
  closed_issues : nat;
  high_urgency_issues : nat
}.
End MachineRow.

(** The grouping columns of a row of the join: [Issue.machine_id],
    [Machine.name]. *)
Definition key_of (r : Row) : string * string := (Issue.machine_id (fst r), snd r).

Definition key_eqb (a b : string * string) : bool :=
  String.eqb (fst a) (fst b) && String.eqb (snd a) (snd b).

(** [GROUP BY]: one group per distinct key, here in order of first
    appearance. *)
Fixpoint groups (keys : list (string * string)) : list (string * string) :=
  match keys with
  | [] => []
  | k :: r => k :: filter (fun k' => negb (key_eqb k k')) (groups r)
  end.

(** [count(Issue.id)] and the two [sum(case(...))] over one group. *)
Definition machine_row (query : list Row) (k : string * string) : MachineRow.t :=
  {| MachineRow.machine_id := fst k;
     MachineRow.machine_name := snd k;
     MachineRow.total_issues := count (fun r => key_eqb k (key_of r)) query;
     MachineRow.closed_issues :=
       count (fun r => key_eqb k (key_of r) &&
                       String.eqb (Issue.status (fst r)) "closed") query;
     MachineRow.high_urgency_issues :=
       count (fun r => key_eqb k (key_of r) &&
                       String.eqb (Issue.urgency (fst r)) "high") query |}.

(** [ORDER BY count(Issue.id) DESC]; groups of equal size keep their
    order. *)
Fixpoint insert_machine_row (x : MachineRow.t) (l : list MachineRow.t)
    : list MachineRow.t :=
  match l with
  | [] => [x]
  | y :: t =>
      if (MachineRow.total_issues y <=? MachineRow.total_issues x)%nat
      then x :: y :: t else y :: insert_machine_row x t
  end.

Definition analytics_by_machine (current_user : User.t) (st : Store)
    : Answer (list MachineRow.t) * Store :=
  role_gate ["supervisor"; "team_leader"; "manager"; "maintenance"] st
    (fun _ =>
       let query := join_machine st in
       ((inl (fold_right insert_machine_row []
                (map (machine_row query) (groups (map key_of query)))), 200), st))
    current_user.

Definition total_of (rows : list MachineRow.t) : nat :=
  fold_right Nat.add 0%nat (map MachineRow.total_issues rows).

(** ** User profiles: [GET /users], [GET /users/:id]. *)

(** [User.to_dict(include_email)]: the [email] key is present only when asked
    for. *)
Module Profile.
Record t := {
  user : User.t;
  matricule_number : option string;
  created_at : datetime;
  email : option (option string)
}.
End Profile.

Definition to_dict (include_email : bool) (a : Account.t) : Profile.t :=
  {| Profile.user := Account.user a;
     Profile.matricule_number := Account.matricule_number a;
     Profile.created_at := Account.created_at a;
     Profile.email := if include_email then Some (Account.email a) else None |}.

Definition get_users (current_user : User.t) (table : list Account.t)
    : Answer (list Profile.t) :=
  (inl (map (to_dict false)
          (filter (fun a => User.is_active (Account.user a)) table)), 200).

Definition get_user (user_id : string) (current_user : User.t)
    (table : list Account.t) : Answer Profile.t :=
  match find (fun a => String.eqb (User.user_id (Account.user a)) user_id) table with
  | None => (inr "User not found", 404)
  | Some user =>
      (inl (to_dict (String.eqb (User.user_id current_user) user_id) user), 200)
  end.

(** ** Authentication: the decorator [token_required]. *)

(** What [jwt.decode] makes of a token: the [user_id] of a token that is
    signed and in date, or one of the two errors the decorator catches. *)
Inductive Decoded :=
| token_of (user_id : string)
| ExpiredSignatureError
| InvalidTokenError.

(** [authorization] is the [Authorization] header, [None] when absent;
    [deny] builds the JSON error answer. *)
Definition token_required {R : Type} (decode : string -> Decoded)
    (deny : string -> Z -> R) (table : list Account.t)
    (authorization : option string) (f : User.t -> R) : R :=
  match authorization with
  | None => deny "Token is missing" 401
  | Some auth_header =>
      match nth_error (Py.split " " auth_header) 1 with
      | None => deny "Invalid token format" 401
      | Some token =>
          if String.eqb token "" then deny "Token is missing" 401
          else
            match decode token with
            | token_of user_id =>
                match find (fun a => String.eqb (User.user_id (Account.user a)) user_id)
                        table with
                | Some current_user =>
                    if User.is_active (Account.user current_user)
                    then f (Account.user current_user)
                    else deny "Invalid user" 401
                | None => deny "Invalid user" 401
                end
            | ExpiredSignatureError => deny "Token has expired" 401
            | InvalidTokenError => deny "Invalid token" 401
            end
      end
  end.

(** * Proofs *)

(** ** The Python primitives on sample inputs *)

Example replace_ISS007 : Py.replace "ISS007" "ISS" "" = "007".
Proof. reflexivity. Qed.

Example replace_single_pass : Py.replace "IISSSS" "ISS" "" = "ISS".
Proof. reflexivity. Qed.

Example int_007 : Py.int "007" = 7%N.
Proof. reflexivity. Qed.

Example format_8 : Py.format_03d 8 = "008".
Proof. reflexivity. Qed.

Example format_1000 : Py.format_03d 1000 = "1000".
Proof. reflexivity. Qed.

Example split_two : Py.split "," "reported,assigned" = ["reported"; "assigned"].
Proof. reflexivity. Qed.

(** ** Rows found by [first()] and written back. *)

Section UpdateFirst.
Context {A : Type} (p : A -> bool) (f : A -> A).

Lemma find_split (l : list A) (x : A) :
  find p l = Some x ->
  exists before after,
    l = (before ++ x :: after)%list /\
    update_first p f l = (before ++ f x :: after)%list.
Proof.
  induction l as [|y l IH]; simpl; [discriminate|].
  destruct (p y) eqn:Hy; intros H.
  - injection H as ->. exists [], l. split; reflexivity.
  - destruct (IH H) as (b & a & -> & E).
    exists (y :: b), a. simpl. rewrite E. split; reflexivity.
Qed.

Lemma find_update_first (l : list A) (x : A) :
  find p l = Some x -> p (f x) = true ->
  find p (update_first p f l) = Some (f x).
Proof.
  induction l as [|y l IH]; simpl; [discriminate|].
  destruct (p y) eqn:Hy; intros H Hf.
  - injection H as ->. simpl. rewrite Hf. reflexivity.
  - simpl. rewrite Hy. auto.
Qed.

Lemma in_update_first (l : list A) (y : A) :
  In y (update_first p f l) -> In y l \/ exists x, In x l /\ y = f x.
Proof.
  induction l as [|z l IH]; simpl; [tauto|].
  destruct (p z); simpl.
  - intros [<- | H]; [right; exists z; auto | auto].
  - intros [<- | H]; [auto|].
    destruct (IH H) as [H' | (x & Hx & ->)]; [auto | right; exists x; auto].
Qed.
End UpdateFirst.

Lemma mem_In (x : string) (l : list string) : Py.mem x l = true <-> In x l.
Proof.
  unfold Py.mem. rewrite existsb_exists. split.
  - intros (y & Hy & E). apply String.eqb_eq in E. now subst.
  - intros H. exists x. split; [assumption | apply String.eqb_refl].
Qed.

Lemma role_required_authorized (roles : list string) (f : Handler) u st :
  authorize u roles = true -> role_required roles f u st = f u st.
Proof.
  unfold authorize, role_required. intros H.
  apply orb_true_iff in H.
  destruct (Py.mem (User.role u) roles), (Py.mem (User.service u) roles);
    simpl; try reflexivity.
  destruct H; discriminate.
Qed.

Lemma role_required_denied (roles : list string) (f : Handler) u st :
  authorize u roles = false ->
  role_required roles f u st = reply (error "Insufficient permissions") 403 st.
Proof.
  unfold authorize, role_required. intros H.
  apply orb_false_iff in H. destruct H as [-> ->]. reflexivity.
Qed.

Lemma first_issue_id st issue_id issue :
  first_issue st issue_id = Some issue -> Issue.issue_id issue = issue_id.
Proof.
  unfold first_issue. intros H. apply find_some in H.
  destruct H as [_ H]. now apply String.eqb_eq in H.
Qed.

(** ** Access control *)

(** C6.  A principal passes [role_required] exactly when its role or its
    service is in the required set: with neither in the set the request is
    answered 403 and the store is untouched, with either in the set the
    wrapped view runs. *)
Theorem role_required_role_or_service :
  forall (roles : list string) (f : Handler) (u : User.t) (st : Store),
    (authorize u roles = true <->
       In (User.role u) roles \/ In (User.service u) roles) /\
    role_required roles f u st =
      (if authorize u roles then f u st
       else reply (error "Insufficient permissions") 403 st) /\
    (~ In (User.role u) roles /\ ~ In (User.service u) roles ->
       Forbidden (response (role_required roles f u st)) /\
       store (role_required roles f u st) = st) /\
    (In (User.role u) roles \/ In (User.service u) roles ->
       role_required roles f u st = f u st).
Proof.
  intros roles f u st.
  assert (Hiff : authorize u roles = true <->
                 In (User.role u) roles \/ In (User.service u) roles).
  { unfold authorize. rewrite orb_true_iff, !mem_In. tauto. }
  split; [exact Hiff|]. split; [|split].
  - destruct (authorize u roles) eqn:E.
    + now apply role_required_authorized.
    + now apply role_required_denied.
  - intros [Hr Hs].
    assert (E : authorize u roles = false).
    { apply not_true_is_false. intros E. apply Hiff in E. tauto. }
    rewrite (role_required_denied _ _ _ _ E). split; reflexivity.
  - intros H. apply role_required_authorized. now apply Hiff.
Qed.

(** ** Assignment *)

(** C3.  Assigning an issue whose status is [closed] or [in_progress]
    leaves the store as it was and emits nothing, and an authorized caller
    is answered with the invalid-transition error; an assignment that
    succeeds found the issue in [reported] or [assigned]. *)
Theorem assign_issue_invalid_transition :
  forall now issue_id u st issue,
    first_issue st issue_id = Some issue ->
    (Issue.status issue = "closed" \/ Issue.status issue = "in_progress" ->
       store (assign_issue now issue_id u st) = st /\
       emitted (assign_issue now issue_id u st) = [] /\
       (authorize u ["maintenance"; "supervisor"; "team_leader"] = true ->
          response (assign_issue now issue_id u st) = InvalidTransition)) /\
    (snd (response (assign_issue now issue_id u st)) = 200 ->
       Issue.status issue = "reported" \/ Issue.status issue = "assigned").
Proof.
  intros now issue_id u st issue Hfind. unfold assign_issue.
  destruct (authorize u ["maintenance"; "supervisor"; "team_leader"]) eqn:Ha.
  - rewrite (role_required_authorized _ _ _ _ Ha), Hfind. split.
    + intros [-> | ->]; simpl; auto.
    + destruct (Py.mem (Issue.status issue) ["reported"; "assigned"]) eqn:Hm;
        simpl; [|discriminate].
      intros _. apply mem_In in Hm. simpl in Hm. intuition auto.
  - rewrite (role_required_denied _ _ _ _ Ha). simpl. split.
    + intros _. repeat split. discriminate.
    + discriminate.
Qed.

(** C4.  A successful assignment of an issue in [reported] or [assigned]
    makes the caller its technician, sets the status to [assigned], stamps
    [accepted_at] with the time of the request, and appends exactly one
    note, "Issue accepted and assigned", authored by the caller; every other
    issue row is as before. *)
Theorem assign_issue_accepts :
  forall now issue_id u st issue,
    first_issue st issue_id = Some issue ->
    authorize u ["maintenance"; "supervisor"; "team_leader"] = true ->
    Issue.status issue = "reported" \/ Issue.status issue = "assigned" ->
    let out := assign_issue now issue_id u st in
    snd (response out) = 200 /\
    (exists issue',
       first_issue (store out) issue_id = Some issue' /\
       Issue.assigned_tech_id issue' = Some (User.id u) /\
       Issue.status issue' = "assigned" /\
       Issue.accepted_at issue' = Some now /\
       emitted out = [issue_updated issue'] /\
       exists before after,
         issues st = (before ++ issue :: after)%list /\
         issues (store out) = (before ++ issue' :: after)%list) /\
    (exists n,
       notes (store out) = (notes st ++ [n])%list /\
       Note.text n = "Issue accepted and assigned" /\
       Note.author_id n = User.id u /\
       Note.issue_id n = Issue.id issue).
Proof.
  intros now issue_id u st issue Hfind Ha Hst out. subst out.
  unfold assign_issue. rewrite (role_required_authorized _ _ _ _ Ha), Hfind.
  assert (Hm : Py.mem (Issue.status issue) ["reported"; "assigned"] = true).
  { apply mem_In. simpl. intuition auto. }
  rewrite Hm. simpl. split; [reflexivity|]. split.
  - exists (accept (User.id u) now issue). repeat split.
    + unfold first_issue, commit_issue in *. simpl.
      apply find_update_first; [assumption|].
      simpl. apply String.eqb_eq. now apply first_issue_id with (st := st).
    + unfold first_issue in Hfind.
      destruct (find_split _ (accept (User.id u) now) _ _ Hfind) as (b & a & E1 & E2).
      exists b, a. split; assumption.
  - eexists. split; [reflexivity|]. simpl. auto.
Qed.

Lemma assign_issue_invalid_transition_sample :
  let st := Sample.db [Sample.issue 1 "ISS001" "closed" (Some 3) 0 (Some 1) (Some 2)] in
  response (assign_issue 5 "ISS001" Sample.technician st) = InvalidTransition /\
  store (assign_issue 5 "ISS001" Sample.technician st) = st.
Proof.
  intros st.
  destruct (assign_issue_invalid_transition 5 "ISS001" Sample.technician st
              (Sample.issue 1 "ISS001" "closed" (Some 3) 0 (Some 1) (Some 2))
              eq_refl) as [H _].
  destruct (H (or_introl eq_refl)) as (Hs & _ & Hr).
  split; [apply Hr; reflexivity | exact Hs].
Defined.

Lemma assign_issue_accepts_sample :
  let st := Sample.db [Sample.issue 1 "ISS001" "reported" None 0 None None] in
  let out := assign_issue 5 "ISS001" Sample.technician st in
  snd (response out) = 200 /\
  exists n, notes (store out) = [n] /\ Note.text n = "Issue accepted and assigned".
Proof.
  intros st out.
  destruct (assign_issue_accepts 5 "ISS001" Sample.technician st
              (Sample.issue 1 "ISS001" "reported" None 0 None None)
              eq_refl eq_refl (or_introl eq_refl))
    as (Hc & _ & n & Hn & Ht & _).
  split; [exact Hc | exists n; split; [exact Hn | exact Ht]].
Defined.

(** ** Generic status update *)

(** What the permission checks of [update_issue_status] test: the caller's
    role, never the caller's service. *)
Lemma update_issue_status_forbidden_iff now issue_id new_status u st issue :
  first_issue st issue_id = Some issue ->
  (Forbidden (response (update_issue_status now issue_id new_status u st)) <->
   User.role u = "production" \/
   (User.role u = "maintenance" /\ not_assigned_to issue u = true)).
Proof.
  intros Hfind. unfold update_issue_status, Forbidden. rewrite Hfind.
  destruct (String.eqb_spec (User.role u) "production") as [E | E].
  - simpl. tauto.
  - destruct (String.eqb_spec (User.role u) "maintenance") as [E' | E'];
      destruct (not_assigned_to issue u); cbn [andb];
      try (simpl; tauto);
      (destruct new_status as [s|];
       [destruct (negb (Py.mem s valid_statuses))|]);
      cbn [response reply snd]; (split; [discriminate|]);
      intros [H | [H1 H2]]; solve [contradiction | discriminate].
Qed.

(** C1.  The code at a production-service caller: the user that
    [utils/create_user.py] creates (service [production], role
    [technician]) sets ISS001 to [closed] through the generic status update;
    the answer is 200, the status changes and a note is written. *)
Theorem update_issue_status_production_service :
  let st := Sample.db [Sample.issue 1 "ISS001" "reported" None 0 None None] in
  let out := update_issue_status 7 "ISS001" (Some "closed") Sample.producer st in
  User.service Sample.producer = "production" /\
  snd (response out) = 200 /\
  map Issue.status (issues (store out)) = ["closed"] /\
  map Note.text (notes (store out)) = ["Status changed to closed"] /\
  map Note.author_id (notes (store out)) = [User.id Sample.producer].
Proof. vm_compute. repeat split. Qed.

(** ** Closing *)

(** What the ownership check of [close_issue] tests: the caller's role. *)
Lemma close_issue_forbidden_iff now issue_id resolution problem_description u st issue :
  first_issue st issue_id = Some issue ->
  authorize u ["maintenance"; "supervisor"; "team_leader"] = true ->
  Issue.status issue <> "closed" ->
  (Forbidden (response (close_issue now issue_id resolution problem_description u st)) <->
   User.role u = "maintenance" /\ not_assigned_to issue u = true).
Proof.
  intros Hfind Ha Hopen. unfold close_issue, Forbidden.
  rewrite (role_required_authorized _ _ _ _ Ha), Hfind.
  destruct (String.eqb_spec (Issue.status issue) "closed") as [E | _];
    [contradiction|].
  destruct (String.eqb_spec (User.role u) "maintenance") as [E' | E'];
    destruct (not_assigned_to issue u); cbn [andb];
    try (simpl; tauto);
    (destruct resolution as [r|]; [destruct (String.eqb r "")|]);
    cbn [response reply snd]; (split; [discriminate|]);
    intros [H1 H2]; solve [contradiction | discriminate].
Qed.

(** Closing twice: the second close is refused and writes nothing. *)
Lemma close_issue_already_closed now issue_id resolution problem_description u st issue :
  first_issue st issue_id = Some issue ->
  authorize u ["maintenance"; "supervisor"; "team_leader"] = true ->
  Issue.status issue = "closed" ->
  close_issue now issue_id resolution problem_description u st =
    {| response := AlreadyClosed; store := st; emitted := [] |}.
Proof.
  intros Hfind Ha Hs. unfold close_issue.
  rewrite (role_required_authorized _ _ _ _ Ha), Hfind, Hs. reflexivity.
Qed.

(** C2.  The code at a maintenance-service caller who is not the assigned
    technician: technician 2 (service [maintenance], role [technician])
    closes ISS001, which is assigned to technician 3; the answer is 200 and
    the issue is closed. *)
Theorem close_issue_maintenance_service_not_assignee :
  let st := Sample.db [Sample.issue 1 "ISS001" "assigned" (Some 3) 0 (Some 1) None] in
  let out := close_issue 9 "ISS001" (Some "Replaced seal") None Sample.technician st in
  User.service Sample.technician = "maintenance" /\
  User.id Sample.technician = 2 /\
  map Issue.assigned_tech_id (issues st) = [Some 3] /\
  snd (response out) = 200 /\
  map Issue.status (issues (store out)) = ["closed"] /\
  map Note.text (notes (store out)) = ["Issue closed. Resolution: Replaced seal"].
Proof. vm_compute. repeat split. Qed.

(** C10.  A successful close rewrites one issue row and appends one note.
    On the row it sets [status], [closed_at] and [resolution], and
    [problem_description] only when the request carries a non-empty one;
    [id], [issue_id], machine reference, description, urgency, reporter,
    assigned technician, [created_at] and [accepted_at] keep their values.
    Users, machines and every other issue are untouched. *)
Theorem close_issue_frame :
  forall now issue_id resolution problem_description u st issue,
    first_issue st issue_id = Some issue ->
    let out := close_issue now issue_id resolution problem_description u st in
    snd (response out) = 200 ->
    exists issue' r,
      resolution = Some r /\
      (exists before after,
         issues st = (before ++ issue :: after)%list /\
         issues (store out) = (before ++ issue' :: after)%list) /\
      users (store out) = users st /\
      machines (store out) = machines st /\
      (exists n,
         notes (store out) = (notes st ++ [n])%list /\
         Note.text n = "Issue closed. Resolution: " ++ r /\
         Note.author_id n = User.id u) /\
      Issue.status issue' = "closed" /\
      Issue.closed_at issue' = Some now /\
      Issue.resolution issue' = Some r /\
      Issue.problem_description issue' =
        (if Py.truthy problem_description then problem_description
         else Issue.problem_description issue) /\
      (problem_description = None \/ problem_description = Some "" ->
       Issue.problem_description issue' = Issue.problem_description issue) /\
      Issue.id issue' = Issue.id issue /\
      Issue.issue_id issue' = Issue.issue_id issue /\
      Issue.machine_id issue' = Issue.machine_id issue /\
      Issue.description issue' = Issue.description issue /\
      Issue.urgency issue' = Issue.urgency issue /\
      Issue.reporter_id issue' = Issue.reporter_id issue /\
      Issue.assigned_tech_id issue' = Issue.assigned_tech_id issue /\
      Issue.created_at issue' = Issue.created_at issue /\
      Issue.accepted_at issue' = Issue.accepted_at issue.
Proof.
  intros now issue_id resolution problem_description u st issue Hfind out.
  subst out. unfold close_issue.
  destruct (authorize u ["maintenance"; "supervisor"; "team_leader"]) eqn:Ha;
    [rewrite (role_required_authorized _ _ _ _ Ha)
    |rewrite (role_required_denied _ _ _ _ Ha); simpl; discriminate].
  rewrite Hfind.
  destruct (String.eqb (Issue.status issue) "closed"); [simpl; discriminate|].
  destruct (String.eqb (User.role u) "maintenance" && not_assigned_to issue u);
    [simpl; discriminate|].
  destruct resolution as [r|]; [|simpl; discriminate].
  destruct (String.eqb r ""); [simpl; discriminate|].
  intros _. exists (closing now r problem_description issue), r.
  split; [reflexivity|]. split.
  { unfold first_issue in Hfind.
    destruct (find_split _ (closing now r problem_description) _ _ Hfind)
      as (b & a & E1 & E2).
    exists b, a. split; assumption. }
  split; [reflexivity|]. split; [reflexivity|]. split.
  { eexists. split; [reflexivity|]. simpl. auto. }
  unfold closing.
  destruct (Py.truthy problem_description) eqn:Ht; simpl; repeat split;
    try reflexivity.
  intros [-> | ->]; discriminate.
Qed.

Lemma close_issue_frame_sample :
  let st := Sample.db [Sample.issue 1 "ISS001" "assigned" (Some 2) 0 (Some 1) None] in
  let out := close_issue 9 "ISS001" (Some "Replaced seal") (Some "") Sample.technician st in
  snd (response out) = 200 /\
  exists issue',
    Issue.problem_description issue' = Some "Seal worn" /\
    Issue.status issue' = "closed" /\
    Issue.assigned_tech_id issue' = Some 2.
Proof.
  intros st out. split; [reflexivity|].
  destruct (close_issue_frame 9 "ISS001" (Some "Replaced seal") (Some "")
              Sample.technician st
              (Sample.issue 1 "ISS001" "assigned" (Some 2) 0 (Some 1) None)
              eq_refl eq_refl)
    as (i' & r & _ & _ & _ & _ & _ & Hs & _ & _ & _ & Hp & _ & _ & _ & _ & _ & _ & Ht & _).
  exists i'. split; [apply Hp; right; reflexivity|]. split; [exact Hs | exact Ht].
Defined.

(** ** Sequence ids *)

Lemma strip_prefix_app (p s r : string) :
  strip_prefix p s = Some r -> s = p ++ r.
Proof.
  revert s. induction p as [|a p IH]; intros s; simpl.
  - intros H. injection H as ->. reflexivity.
  - destruct s as [|b s]; [discriminate|].
    destruct (Ascii.eqb_spec a b) as [-> | _]; [|discriminate].
    intros H. f_equal. now apply IH.
Qed.

Lemma prefix_strip (p s : string) :
  String.prefix p s =
  match strip_prefix p s with Some _ => true | None => false end.
Proof.
  revert s. induction p as [|a p IH]; intros s;
    [destruct s; reflexivity|].
  destruct s as [|b s]; [reflexivity|]. simpl.
  destruct (ascii_dec a b) as [-> | N].
  - rewrite Ascii.eqb_refl. apply IH.
  - destruct (Ascii.eqb_spec a b); [contradiction | reflexivity].
Qed.

Lemma replace_from_absent (old new s : string) :
  Py.contains s old = false -> Py.replace_from old new 0 s = s.
Proof.
  induction s as [|c s IH]; [reflexivity|].
  cbn [Py.contains Py.replace_from]. intros H.
  apply orb_false_iff in H. destruct H as [H1 H2].
  rewrite H1, (IH H2). reflexivity.
Qed.

Lemma replace_sequence_id (rest : string) :
  Py.contains rest "ISS" = false -> Py.replace ("ISS" ++ rest) "ISS" "" = rest.
Proof.
  intros H. unfold Py.replace. simpl.
  replace (String.prefix "" rest) with true by (destruct rest; reflexivity).
  now apply replace_from_absent.
Qed.

Lemma iss_number_of_tracker_id (id : string) :
  sequence_id_ok id = true ->
  (if Py.startswith id "ISS"
   then if Py.isdigit (Py.replace id "ISS" "")
        then [Py.int (Py.replace id "ISS" "")] else []
   else []) =
  match numeric_suffix id with Some n => [n] | None => [] end.
Proof.
  unfold sequence_id_ok, numeric_suffix, Py.startswith.
  rewrite prefix_strip.
  destruct (strip_prefix "ISS" id) as [rest|] eqn:E; [|reflexivity].
  apply strip_prefix_app in E. subst id. intros H.
  apply negb_true_iff in H. rewrite (replace_sequence_id _ H).
  destruct (Py.isdigit rest); reflexivity.
Qed.

Lemma iss_numbers_suffixes (l : list Issue.t) :
  forallb (fun i => sequence_id_ok (Issue.issue_id i)) l = true ->
  iss_numbers l = numeric_suffixes (map Issue.issue_id l).
Proof.
  unfold iss_numbers, numeric_suffixes.
  induction l as [|i l IH]; [reflexivity|].
  cbn [forallb flat_map map]. intros H.
  apply andb_true_iff in H. destruct H as [Hi Hl].
  rewrite (IH Hl). f_equal. now apply iss_number_of_tracker_id.
Qed.

Lemma max_maximum (n : N) (ns : list N) : Py.max n ns = maximum (n :: ns).
Proof.
  unfold Py.max. revert n. induction ns as [|m ns IH]; intros n; simpl.
  - symmetry. apply N.max_0_r.
  - rewrite IH. simpl. symmetry. apply N.max_assoc.
Qed.

(** On tracker ids the scan of the code computes what the specification
    describes. *)
Lemma new_issue_id_next_sequence_id (st : Store) :
  tracker_ids st ->
  new_issue_id (issues st) = next_sequence_id (map Issue.issue_id (issues st)).
Proof.
  unfold tracker_ids, new_issue_id, next_sequence_id. intros H.
  rewrite (iss_numbers_suffixes _ H).
  destruct (numeric_suffixes (map Issue.issue_id (issues st))) as [|n ns];
    [reflexivity|].
  now rewrite max_maximum.
Qed.

(** C5.  On a store whose ids are tracker ids, a created issue is appended
    with status [reported] and with the id the specification describes: the
    maximum numeric suffix among the existing ids of the form [ISS] followed by
    digits, plus one, zero-padded to three digits, and [ISS001] when no
    existing id has that form. *)
Theorem create_issue_next_sequence_id :
  forall now data u st,
    tracker_ids st ->
    let out := create_issue now data u st in
    snd (response out) = 201 ->
    exists issue,
      issues (store out) = (issues st ++ [issue])%list /\
      Issue.issue_id issue = next_sequence_id (map Issue.issue_id (issues st)) /\
      Issue.status issue = "reported" /\
      Issue.reporter_id issue = User.id u /\
      emitted out = [new_issue issue].
Proof.
  intros now data u st Hids out. subst out. unfold create_issue.
  destruct (authorize u ["production"; "supervisor"; "team_leader"]) eqn:Ha;
    [rewrite (role_required_authorized _ _ _ _ Ha)
    |rewrite (role_required_denied _ _ _ _ Ha); simpl; discriminate].
  destruct (NewIssue.machine_id data) as [m|]; [|simpl; discriminate].
  destruct (NewIssue.description data) as [d|]; [|simpl; discriminate].
  destruct (NewIssue.urgency data) as [g|]; [|simpl; discriminate].
  destruct (negb (json_in g ["low"; "medium"; "high"])); [simpl; discriminate|].
  destruct m, d, g; try (simpl; discriminate).
  intros _. eexists. split; [reflexivity|]. cbn [Issue.issue_id Issue.status Issue.reporter_id emitted].
  split; [now apply new_issue_id_next_sequence_id|]. auto.
Qed.

Lemma create_issue_next_sequence_id_sample :
  let data := {| NewIssue.machine_id := Some (JString "MACH001");
                 NewIssue.description := Some (JString "Belt torn");
                 NewIssue.urgency := Some (JString "medium") |} in
  let out := create_issue 11 data Sample.producer (Sample.db Sample.seven) in
  map Issue.issue_id (issues (Sample.db Sample.seven)) =
    ["ISS001"; "ISS002"; "ISS003"; "ISS004"; "ISS005"; "ISS006"; "ISS007"] /\
  exists issue,
    issues (store out) = (Sample.seven ++ [issue])%list /\
    Issue.issue_id issue = "ISS008".
Proof.
  intros data out. split; [reflexivity|].
  destruct (create_issue_next_sequence_id 11 data Sample.producer
              (Sample.db Sample.seven) eq_refl eq_refl)
    as (issue & Hi & Hid & _).
  exists issue. split; [exact Hi | exact Hid].
Defined.

Example first_sequence_id : next_sequence_id [] = "ISS001".
Proof. reflexivity. Qed.

Example first_issue_id_created :
  new_issue_id [] = "ISS001" /\
  new_issue_id [Sample.issue 1 "TEST000" "reported" None 0 None None] = "ISS001".
Proof. split; reflexivity. Qed.

(** The scan removes every [ISS], not only the prefix: on an id that
    carries [ISS] twice the code reads a number the format does not give
    it.  No handler writes such an id. *)
Example replace_removes_every_occurrence :
  let odd := Sample.issue 1 "ISS1ISS2" "reported" None 0 None None in
  sequence_id_ok (Issue.issue_id odd) = false /\
  iss_numbers [odd] = [12%N] /\
  numeric_suffixes ["ISS1ISS2"] = [] /\
  new_issue_id [odd] = "ISS013".
Proof. repeat split. Qed.

(** ** The store invariants hold along every request *)

Lemma all_digits_no_ISS (s : string) :
  Py.all_digits s = true -> Py.contains s "ISS" = false.
Proof.
  induction s as [|c s IH]; [reflexivity|].
  cbn [Py.all_digits Py.contains]. intros H.
  apply andb_true_iff in H. destruct H as [Hc Hs].
  rewrite (IH Hs), orb_false_r, prefix_strip. cbn [strip_prefix].
  destruct (Ascii.eqb_spec "I" c) as [<- | _]; [discriminate Hc | reflexivity].
Qed.

Lemma all_digits_app (s t : string) :
  Py.all_digits s = true -> Py.all_digits t = true -> Py.all_digits (s ++ t) = true.
Proof.
  induction s as [|c s IH]; simpl; [auto|].
  intros H Ht. apply andb_true_iff in H. destruct H as [-> Hs]. simpl. auto.
Qed.

Lemma all_digits_zeros (k : nat) : Py.all_digits (Py.zeros k) = true.
Proof. induction k; simpl; auto. Qed.

Lemma all_digits_uint (d : Decimal.uint) :
  Py.all_digits (NilEmpty.string_of_uint d) = true.
Proof. induction d; simpl; auto. Qed.

Lemma all_digits_str (n : N) : Py.all_digits (Py.str n) = true.
Proof.
  unfold Py.str, NilZero.string_of_uint.
  destruct (N.to_uint n) eqn:E; try reflexivity;
    rewrite <- E; apply all_digits_uint.
Qed.

Lemma all_digits_format (n : N) : Py.all_digits (Py.format_03d n) = true.
Proof.
  unfold Py.format_03d.
  apply all_digits_app; [apply all_digits_zeros | apply all_digits_str].
Qed.

Lemma sequence_id_ok_new (l : list Issue.t) : sequence_id_ok (new_issue_id l) = true.
Proof.
  unfold new_issue_id. destruct (iss_numbers l) as [|n ns]; [reflexivity|].
  unfold sequence_id_ok. simpl.
  now rewrite all_digits_no_ISS by apply all_digits_format.
Qed.

(** *** A new id is fresh: the unique constraint on [issue_id] never fires. *)

Lemma int_from_acc (d : Decimal.uint) (acc : positive) :
  Py.int_from (Npos acc) (NilEmpty.string_of_uint d) = Npos (Pos.of_uint_acc d acc).
Proof.
  revert acc. induction d; intros acc;
    cbn [NilEmpty.string_of_uint Py.int_from Pos.of_uint_acc];
    try reflexivity; rewrite <- IHd; f_equal;
    match goal with
    | |- context [(N_of_ascii ?c - 48)%N] =>
        let v := eval vm_compute in (N_of_ascii c - 48)%N in
        change (N_of_ascii c - 48)%N with v
    end; lia.
Qed.

Lemma int_of_uint (d : Decimal.uint) :
  Py.int (NilEmpty.string_of_uint d) = N.of_uint d.
Proof.
  unfold Py.int, N.of_uint.
  induction d; cbn [NilEmpty.string_of_uint Py.int_from Pos.of_uint];
    try reflexivity; try exact IHd;
    rewrite <- int_from_acc; reflexivity.
Qed.

(** [int(str(n)) == n] *)
Lemma int_str (n : N) : Py.int (Py.str n) = n.
Proof.
  unfold Py.str, NilZero.string_of_uint.
  rewrite <- (DecimalN.Unsigned.of_to n) at 2.
  destruct (N.to_uint n) eqn:E; try apply int_of_uint. reflexivity.
Qed.

Lemma int_from_zeros (k : nat) (s : string) :
  Py.int_from 0 (Py.zeros k ++ s) = Py.int_from 0 s.
Proof. induction k; simpl; auto. Qed.

Lemma int_format (n : N) : Py.int (Py.format_03d n) = n.
Proof. unfold Py.format_03d, Py.int. rewrite int_from_zeros. apply int_str. Qed.

Lemma format_not_empty (n : N) : Py.format_03d n <> "".
Proof.
  unfold Py.format_03d. destruct (Py.zeros _); [|discriminate]. simpl.
  unfold Py.str, NilZero.string_of_uint.
  destruct (N.to_uint n); simpl; discriminate.
Qed.

Lemma iss_numbers_In (l : list Issue.t) (i : Issue.t) (digits : string) :
  In i l -> Issue.issue_id i = "ISS" ++ digits ->
  Py.all_digits digits = true -> digits <> "" ->
  In (Py.int digits) (iss_numbers l).
Proof.
  intros Hin E Hd Hne. unfold iss_numbers. apply in_flat_map.
  exists i. split; [assumption|]. rewrite E.
  rewrite (replace_sequence_id _ (all_digits_no_ISS _ Hd)).
  replace (Py.startswith ("ISS" ++ digits) "ISS") with true
    by (unfold Py.startswith; rewrite prefix_strip; reflexivity).
  replace (Py.isdigit digits) with true
    by (destruct digits; [contradiction | symmetry; exact Hd]).
  now left.
Qed.

Lemma maximum_ge (l : list N) (m : N) : In m l -> (m <= maximum l)%N.
Proof.
  induction l as [|n l IH]; simpl; [contradiction|].
  intros [-> | H]; [apply N.le_max_l|].
  specialize (IH H). lia.
Qed.

Theorem new_issue_id_fresh (l : list Issue.t) (i : Issue.t) :
  In i l -> Issue.issue_id i <> new_issue_id l.
Proof.
  intros Hin E. unfold new_issue_id in E.
  destruct (iss_numbers l) as [|n ns] eqn:EN.
  - assert (H : In (Py.int "001") (iss_numbers l))
      by (apply (iss_numbers_In l i "001"); [assumption | exact E | reflexivity | discriminate]).
    rewrite EN in H. contradiction.
  - assert (H : In (Py.int (Py.format_03d (Py.max n ns + 1))) (iss_numbers l)).
    { apply (iss_numbers_In l i); [assumption | exact E | apply all_digits_format
                                  | apply format_not_empty]. }
    rewrite int_format, EN in H. apply maximum_ge in H.
    rewrite <- max_maximum in H. lia.
Qed.

Lemma issue_write_keeps (f : Issue.t -> Issue.t) (i : Issue.t) :
  issue_write f ->
  Issue.issue_id (f i) = Issue.issue_id i /\
  (accepted_if_assigned i = true -> accepted_if_assigned (f i) = true).
Proof.
  intros [tech now | s | now r pd]; unfold accepted_if_assigned.
  - split; reflexivity.
  - split; [reflexivity | exact (fun H => H)].
  - unfold closing. destruct (Py.truthy pd); split;
      solve [reflexivity | exact (fun H => H)].
Qed.

Lemma serve_issues now req u st :
  let issues' := issues (store (serve now req u st)) in
  issues' = issues st \/
  (exists i, issues' = (issues st ++ [i])%list /\
             Issue.issue_id i = new_issue_id (issues st) /\
             Issue.assigned_tech_id i = None) \/
  (exists p f, issues' = update_first p f (issues st) /\ issue_write f).
Proof.
  destruct req; cbn [serve];
    unfold create_issue, assign_issue, update_issue_status, close_issue,
      add_note, get_issues, analytics_dashboard, analytics_by_technician,
      role_required;
    repeat match goal with
      | |- context [store (if ?b then _ else _)] => destruct b
      | |- context [store (match ?x with _ => _ end)] => destruct x
      end;
    cbn [store reply add_note_row commit_issue with_notes with_issues issues];
    try (left; reflexivity).
  - right; left. eexists. split; [reflexivity|]. split; reflexivity.
  - right; right. do 2 eexists. split; [reflexivity | constructor].
  - right; right. do 2 eexists. split; [reflexivity | constructor].
  - right; right. do 2 eexists. split; [reflexivity | constructor].
Qed.

Lemma forallb_update_first {A : Type} (q p : A -> bool) (f : A -> A) (l : list A) :
  (forall x, q x = true -> q (f x) = true) ->
  forallb q l = true -> forallb q (update_first p f l) = true.
Proof.
  intros Hf. induction l as [|x l IH]; simpl; [auto|].
  intros H. apply andb_true_iff in H. destruct H as [Hx Hl].
  destruct (p x); simpl; apply andb_true_iff; auto.
Qed.

(** Every request keeps sequence ids tracker ids. *)
Lemma serve_keeps_tracker_ids now req u st :
  tracker_ids st -> tracker_ids (store (serve now req u st)).
Proof.
  unfold tracker_ids. intros H.
  destruct (serve_issues now req u st) as [E | [(i & E & Hid & _) | (p & f & E & Hf)]];
    rewrite E.
  - exact H.
  - rewrite forallb_app, H. simpl. now rewrite Hid, sequence_id_ok_new.
  - apply forallb_update_first; [|exact H].
    intros x Hx. now rewrite (proj1 (issue_write_keeps f x Hf)).
Qed.

(** Every request keeps assigned issues accepted. *)
Lemma serve_keeps_assigned_accepted now req u st :
  assigned_were_accepted st -> assigned_were_accepted (store (serve now req u st)).
Proof.
  unfold assigned_were_accepted. intros H.
  destruct (serve_issues now req u st) as [E | [(i & E & _ & Hi) | (p & f & E & Hf)]];
    rewrite E.
  - exact H.
  - rewrite forallb_app, H. simpl. unfold accepted_if_assigned. now rewrite Hi.
  - apply forallb_update_first; [|exact H].
    intros x. apply (issue_write_keeps f x Hf).
Qed.

Lemma run_keeps_invariants reqs st :
  tracker_ids st /\ assigned_were_accepted st ->
  tracker_ids (run reqs st) /\ assigned_were_accepted (run reqs st).
Proof.
  revert st. induction reqs as [|[[now req] u] reqs IH]; intros st [H1 H2];
    simpl; [auto|].
  apply IH. split;
    [now apply serve_keeps_tracker_ids | now apply serve_keeps_assigned_accepted].
Qed.

(** In particular every store the API builds from an empty issue table. *)
Corollary run_from_no_issues reqs us ms :
  let st := run reqs {| users := us; machines := ms; issues := []; notes := [] |} in
  tracker_ids st /\ assigned_were_accepted st.
Proof. apply run_keeps_invariants. split; reflexivity. Qed.

(** ** Listing *)

Lemma filter_filter {A : Type} (p q : A -> bool) (l : list A) :
  filter p (filter q l) = filter (fun x => q x && p x) l.
Proof.
  induction l as [|x l IH]; simpl; [reflexivity|].
  destruct (q x); simpl; [destruct (p x)|]; now rewrite IH.
Qed.

Lemma filter_all {A : Type} (l : list A) : filter (fun _ => true) l = l.
Proof. induction l; simpl; congruence. Qed.

Lemma when_given_filter (param : option string) (test : string -> Row -> bool)
    (query : list Row) :
  when_given param (fun v => filter (test v)) query =
  filter (fun r => given param (fun v => test v r)) query.
Proof.
  unfold when_given, given. destruct param as [v|].
  - destruct (String.eqb v ""); [now rewrite filter_all | reflexivity].
  - now rewrite filter_all.
Qed.

Lemma status_filter_filter (status : string) (query : list Row) :
  status_filter status query =
  filter (fun r => if Py.contains status ","
                   then Py.mem (Issue.status (fst r)) (Py.split "," status)
                   else String.eqb (Issue.status (fst r)) status) query.
Proof. unfold status_filter. destruct (Py.contains status ","); reflexivity. Qed.

Lemma date_filter_filter (date : option datetime) (query : list Row) :
  date_filter date query =
  filter (fun r => match date with
                   | None => true
                   | Some day => (day <=? Issue.created_at (fst r)) &&
                                 (Issue.created_at (fst r) <? day + one_day)
                   end) query.
Proof. destruct date; simpl; [reflexivity | now rewrite filter_all]. Qed.

(** The explicit filters of the query are the predicate [selected]. *)
Lemma issues_query_selected u args st :
  issues_query u args st =
  filter (fun r => selected args (fst r)) (role_filter u (join_machine st)).
Proof.
  unfold issues_query.
  replace (when_given (Args.status args) status_filter)
    with (when_given (Args.status args)
            (fun v => filter (fun r : Row =>
                                if Py.contains v ","
                                then Py.mem (Issue.status (fst r)) (Py.split "," v)
                                else String.eqb (Issue.status (fst r)) v))).
  - rewrite date_filter_filter, !when_given_filter, !filter_filter.
    apply filter_ext. intros r. unfold selected. now rewrite !andb_assoc.
  - unfold when_given. destruct (Args.status args) as [v|]; [|reflexivity].
    destruct (String.eqb v ""); [reflexivity|].
    unfold status_filter. now destruct (Py.contains v ",").
Qed.

Lemma in_insert_row (x r : Row) (l : list Row) :
  In x (insert_row r l) <-> x = r \/ In x l.
Proof.
  induction l as [|y l IH]; simpl; [intuition auto|].
  destruct (row_before r y); simpl; rewrite ?IH; intuition auto.
Qed.

Lemma in_order_by (x : Row) (l : list Row) : In x (order_by l) <-> In x l.
Proof.
  unfold order_by. induction l as [|y l IH]; simpl; [tauto|].
  rewrite in_insert_row, IH. intuition auto.
Qed.

Lemma in_paginate (x : Row) page per_page (l : list Row) :
  In x (paginate page per_page l) -> In x l.
Proof.
  unfold paginate.
  set (n := Z.to_nat (if per_page <? 1 then 20 else per_page)).
  set (k := Z.to_nat _). intros H.
  rewrite <- (firstn_skipn k l). apply in_or_app. right.
  rewrite <- (firstn_skipn n (skipn k l)). apply in_or_app. now left.
Qed.

Lemma in_join_machine st i m :
  In i (issues st) -> In m (machines st) ->
  Machine.machine_id m = Issue.machine_id i ->
  In (i, Machine.name m) (join_machine st).
Proof.
  intros Hi Hm E. unfold join_machine. apply in_flat_map.
  exists i. split; [assumption|]. apply in_map_iff.
  exists m. split; [reflexivity|]. apply filter_In. split; [assumption|].
  rewrite E. apply String.eqb_refl.
Qed.

(** Rows of the query come with a machine that exists. *)
Lemma join_machine_inv st r :
  In r (join_machine st) ->
  In (fst r) (issues st) /\
  exists m, In m (machines st) /\
            Machine.machine_id m = Issue.machine_id (fst r) /\
            snd r = Machine.name m.
Proof.
  unfold join_machine. intros H. apply in_flat_map in H.
  destruct H as (i & Hi & H). apply in_map_iff in H.
  destruct H as (m & <- & H). apply filter_In in H. destruct H as [Hm E].
  apply String.eqb_eq in E. simpl. split; [assumption|].
  exists m. auto.
Qed.

(** The page of a listing, or nothing when the request ended in an error. *)
Lemma listing_get_issues args u st :
  listing (get_issues args u st) =
  if out_of_range (Args.page args) (Args.per_page args) then []
  else paginate (Args.page args) (Args.per_page args)
         (order_by (issues_query u args st)).
Proof.
  unfold get_issues, listing.
  now destruct (out_of_range (Args.page args) (Args.per_page args)).
Qed.

Lemma in_listing_query args u st r :
  In r (listing (get_issues args u st)) -> In r (issues_query u args st).
Proof.
  rewrite listing_get_issues.
  destruct (out_of_range (Args.page args) (Args.per_page args)); [intros []|].
  intros H. apply in_paginate in H. now apply (proj1 (in_order_by _ _)) in H.
Qed.

Lemma in_listing_join args u st r :
  In r (listing (get_issues args u st)) -> In r (join_machine st).
Proof.
  intros H. apply in_listing_query in H.
  rewrite issues_query_selected in H.
  apply filter_In in H. destruct H as [H _]. unfold role_filter in H.
  destruct (String.eqb (User.service u) "production").
  - now apply filter_In in H.
  - now destruct (String.eqb (User.service u) "maintenance").
Qed.

(** What [get_issues] lists, by the service of the caller.  A
    production-service caller is listed only issues they reported.  For a
    maintenance-service caller neither the reporter nor the assignment takes
    part: the listing is the requested page of the ordered rows of the
    machine join that pass the explicit filters. *)
Lemma get_issues_by_service args u st :
  (User.service u = "production" ->
     forall r, In r (listing (get_issues args u st)) ->
               Issue.reporter_id (fst r) = User.id u) /\
  (User.service u = "maintenance" ->
     listing (get_issues args u st) =
       if out_of_range (Args.page args) (Args.per_page args) then []
       else paginate (Args.page args) (Args.per_page args)
              (order_by (filter (fun r => selected args (fst r)) (join_machine st)))).
Proof.
  split; intros Hs.
  - intros r H. apply in_listing_query in H.
    rewrite issues_query_selected in H. apply filter_In in H.
    destruct H as [H _]. unfold role_filter in H. rewrite Hs in H. simpl in H.
    apply filter_In in H. destruct H as [_ H]. now apply Z.eqb_eq in H.
  - rewrite listing_get_issues, issues_query_selected.
    unfold role_filter. rewrite Hs. reflexivity.
Qed.

Lemma first_issue_appended st (issue : Issue.t) :
  (forall j, In j (issues st) -> Issue.issue_id j <> Issue.issue_id issue) ->
  first_issue (with_issues (issues st ++ [issue]) st) (Issue.issue_id issue) =
    Some issue.
Proof.
  unfold first_issue. cbn [issues with_issues].
  induction (issues st) as [|j l IH]; intros H; simpl.
  - now rewrite String.eqb_refl.
  - destruct (String.eqb_spec (Issue.issue_id j) (Issue.issue_id issue)) as [E | _].
    + exfalso. apply (H j); [now left | exact E].
    + apply IH. intros k Hk. apply H. now right.
Qed.

(** C7.  The code against the claim's "all issues".  [create_issue] does
    not look the machine id up, and [get_issues] reads the issue table
    through its join with the machine table.  So an issue that the API
    accepted with 201 against a machine id that no machine carries is in
    the store, [get_issue] returns it, and no listing shows it: not to a
    maintenance-service caller, not without filters, on no page. *)
Theorem get_issues_omits_issue_of_unknown_machine :
  forall now m d g reporter st,
    authorize reporter ["production"; "supervisor"; "team_leader"] = true ->
    In g ["low"; "medium"; "high"] ->
    (forall x, In x (machines st) -> Machine.machine_id x <> m) ->
    let data := {| NewIssue.machine_id := Some (JString m);
                   NewIssue.description := Some (JString d);
                   NewIssue.urgency := Some (JString g) |} in
    let out := create_issue now data reporter st in
    exists issue,
      response out = (issue_message "Issue created successfully" issue, 201) /\
      issues (store out) = (issues st ++ [issue])%list /\
      Issue.machine_id issue = m /\
      (forall caller, User.role caller <> "production" ->
         get_issue (Issue.issue_id issue) caller (store out) =
           (inl (issue, notes_of (store out) issue), 200)) /\
      (forall args caller,
         ~ In issue (map fst (listing (get_issues args caller (store out))))).
Proof.
  intros now m d g reporter st Ha Hg Hm data out. subst out data.
  unfold create_issue. rewrite (role_required_authorized _ _ _ _ Ha).
  cbn [NewIssue.machine_id NewIssue.description NewIssue.urgency json_in].
  apply mem_In in Hg. rewrite Hg. cbn [negb response store].
  eexists. split; [reflexivity|]. split; [reflexivity|]. split; [reflexivity|].
  split.
  - intros caller Hc. unfold get_issue.
    rewrite (first_issue_appended st); cbn [Issue.issue_id].
    + destruct (String.eqb_spec (User.role caller) "production") as [E | _];
        [contradiction | reflexivity].
    + intros j Hj. now apply new_issue_id_fresh.
  - intros args caller H. apply in_map_iff in H.
    destruct H as (r & E & H). apply in_listing_join, join_machine_inv in H.
    destruct H as (_ & x & Hx & Ex & _). cbn [machines with_issues] in Hx.
    apply (Hm x Hx). rewrite Ex, E. reflexivity.
Qed.

(** Two issues on a registered machine and a third one created against
    [MACH404]: a maintenance technician who lists without filters is shown
    the first two. *)
Lemma get_issues_omits_issue_of_unknown_machine_sample :
  let st := Sample.db [Sample.issue 1 "ISS001" "reported" None 0 None None;
                       Sample.issue 2 "ISS002" "assigned" (Some 3) 5 (Some 6) None] in
  let data := {| NewIssue.machine_id := Some (JString "MACH404");
                 NewIssue.description := Some (JString "Belt torn");
                 NewIssue.urgency := Some (JString "medium") |} in
  let out := create_issue 11 data Sample.producer st in
  let shown := listing (get_issues Sample.no_filters Sample.technician (store out)) in
  User.service Sample.technician = "maintenance" /\
  snd (response out) = 201 /\
  map Issue.issue_id (issues (store out)) = ["ISS001"; "ISS002"; "ISS003"] /\
  forallb (selected Sample.no_filters) (issues (store out)) = true /\
  map (fun r => Issue.issue_id (fst r)) shown = ["ISS002"; "ISS001"] /\
  exists issue,
    In issue (issues (store out)) /\
    fst (get_issue "ISS003" Sample.technician (store out)) =
      inl (issue, notes_of (store out) issue) /\
    ~ In issue (map fst shown).
Proof.
  intros st data out shown.
  repeat (split; [reflexivity|]).
  destruct (get_issues_omits_issue_of_unknown_machine 11 "MACH404" "Belt torn"
              "medium" Sample.producer st eq_refl (or_intror (or_introl eq_refl)))
    as (issue & Hr & Hi & _ & Hget & Hlist).
  { intros x [<- | []]. discriminate. }
  subst shown out data. exists issue. split; [|split].
  - rewrite Hi. apply in_or_app. right. now left.
  - assert (E : Issue.issue_id issue = "ISS003").
    { injection Hr as <-. reflexivity. }
    rewrite <- E, Hget; [reflexivity | discriminate].
  - apply (Hlist Sample.no_filters Sample.technician).
Defined.

(** ** Analytics *)

Local Open Scope Q_scope.

Lemma fold_left_Qplus (l : list Q) (a : Q) :
  fold_left Qplus l a == a + fold_right Qplus 0 l.
Proof.
  revert a. induction l as [|x l IH]; intros a; simpl.
  - ring.
  - rewrite IH. ring.
Qed.

Lemma py_sum_fold_right (l : list Q) : py_sum l == fold_right Qplus 0 l.
Proof. unfold py_sum. rewrite fold_left_Qplus. ring. Qed.

Lemma hours_of_seconds (t0 t1 : datetime) :
  total_seconds (t1 - t0) / (3600 # 1) == hours_between t0 t1.
Proof.
  unfold total_seconds, hours_between, Qdiv, Qinv, Qmult, Qeq. simpl.
  ring.
Qed.

Section MeanOverKept.
Context {A : Type} (keep : A -> bool) (g h : A -> list Q).

(** [g] is what the code adds up over the rows its query kept, [h] what
    the specification averages over all rows. *)
Lemma kept_sum_and_length (L : list A) :
  (forall x, In x L -> keep x = true ->
             exists a b, g x = [a] /\ h x = [b] /\ a == b) ->
  (forall x, In x L -> keep x = false -> h x = []) ->
  List.length (flat_map h L) = List.length (filter keep L) /\
  fold_right Qplus 0 (flat_map g (filter keep L)) ==
  fold_right Qplus 0 (flat_map h L).
Proof.
  induction L as [|x L IH]; intros Hk Hd; simpl; [split; reflexivity|].
  destruct IH as [IHl IHs].
  { intros y Hy. apply Hk. now right. }
  { intros y Hy. apply Hd. now right. }
  destruct (keep x) eqn:E.
  - destruct (Hk x (or_introl eq_refl) E) as (a & b & Eg & Eh & Eab).
    rewrite Eh. simpl. rewrite Eg. simpl. split; [now rewrite IHl|].
    now rewrite IHs, Eab.
  - rewrite (Hd x (or_introl eq_refl) E). simpl. split; assumption.
Qed.

Lemma mean_over_kept (L : list A) :
  (forall x, In x L -> keep x = true ->
             exists a b, g x = [a] /\ h x = [b] /\ a == b) ->
  (forall x, In x L -> keep x = false -> h x = []) ->
  match filter keep L with
  | [] => 0
  | _ :: _ => py_sum (flat_map g (filter keep L)) / len (filter keep L)
  end == arithmetic_mean (flat_map h L).
Proof.
  intros Hk Hd. destruct (kept_sum_and_length L Hk Hd) as [Hl Hs].
  unfold arithmetic_mean, len.
  destruct (filter keep L) as [|k K] eqn:EK;
    destruct (flat_map h L) as [|y Y] eqn:EY; try discriminate Hl.
  - reflexivity.
  - rewrite py_sum_fold_right, Hs, Hl. reflexivity.
Qed.
End MeanOverKept.

(** C8.  The average the dashboard computes is the arithmetic mean, over
    the issues with status [closed] and [closed_at] present, of
    [closed_at - created_at] in hours, and 0 when there is no such issue.
    (Exact rational arithmetic; the response field carries this value
    through [round(..., 2)].) *)
Theorem avg_resolution_time_is_mean :
  forall st,
    avg_resolution_time st == arithmetic_mean (resolution_times st) /\
    (resolution_times st = [] -> avg_resolution_time st == 0).
Proof.
  intros st.
  assert (H : avg_resolution_time st == arithmetic_mean (resolution_times st)).
  { unfold avg_resolution_time, resolution_times. cbv zeta.
    apply mean_over_kept.
    - intros i _ Hk. unfold stamped_closed in Hk.
      apply andb_true_iff in Hk. destruct Hk as [Hs Hc]. rewrite Hs.
      destruct (Issue.closed_at i) as [c|]; [|discriminate].
      do 2 eexists. split; [reflexivity|]. split; [reflexivity|].
      apply hours_of_seconds.
    - intros i _ Hk. unfold stamped_closed in Hk.
      destruct (String.eqb (Issue.status i) "closed"); [|reflexivity].
      destruct (Issue.closed_at i); [discriminate | reflexivity]. }
  split; [exact H|]. intros E. rewrite H, E. reflexivity.
Qed.

(** Issues created at 10:00 and closed at 12:00 and at 11:00: 1.5 hours,
    in the average and in the summary. *)
Example dashboard_two_closed :
  let st := (Sample.db
              [Sample.issue 1 "ISS001" "closed" None (10 * Sample.hour) None
                 (Some (12 * Sample.hour)%Z);
               Sample.issue 2 "ISS002" "closed" None (10 * Sample.hour) None
                 (Some (11 * Sample.hour)%Z);
               Sample.issue 3 "ISS003" "reported" None (10 * Sample.hour) None None])%Z in
  avg_resolution_time st == 3 # 2 /\
  py_round2 (avg_resolution_time st) == 3 # 2.
Proof. split; reflexivity. Qed.

Example dashboard_none_closed :
  avg_resolution_time
    (Sample.db [Sample.issue 1 "ISS001" "reported" None 0%Z None None]) = 0 /\
  avg_resolution_time (Sample.db []) = 0.
Proof. split; reflexivity. Qed.

(** C9.  For a technician the rollup averages [closed_at - accepted_at],
    in hours, over the technician's issues with status [closed] and
    [closed_at] present, and gives 0 when there is none.  The store is one
    in which assigned issues were accepted, as every store the API builds
    is.  (Exact rational arithmetic; the response field carries this value
    through [round(..., 2)].) *)
Theorem technician_avg_time_is_mean :
  forall st tech,
    assigned_were_accepted st ->
    avg_time st tech == arithmetic_mean (handling_times st tech) /\
    (handling_times st tech = [] -> avg_time st tech == 0).
Proof.
  intros st tech Hinv.
  assert (H : avg_time st tech == arithmetic_mean (handling_times st tech)).
  { unfold avg_time, handling_times. cbv zeta.
    apply mean_over_kept with
      (keep := fun i => assigned_to tech i && stamped_closed i).
    - intros i Hi Hk. apply andb_true_iff in Hk. destruct Hk as [Ha Hk].
      unfold stamped_closed in Hk. apply andb_true_iff in Hk.
      destruct Hk as [Hs Hc]. rewrite Ha, Hs. simpl.
      unfold assigned_were_accepted in Hinv.
      rewrite forallb_forall in Hinv. specialize (Hinv i Hi).
      unfold accepted_if_assigned in Hinv. unfold assigned_to in Ha.
      destruct (Issue.assigned_tech_id i); [|discriminate].
      destruct (Issue.accepted_at i) as [a|]; [|discriminate].
      destruct (Issue.closed_at i) as [c|]; [|discriminate].
      do 2 eexists. split; [reflexivity|]. split; [reflexivity|].
      apply hours_of_seconds.
    - intros i _ Hk. unfold stamped_closed in Hk.
      destruct (assigned_to tech i); [|reflexivity].
      destruct (String.eqb (Issue.status i) "closed"); [|reflexivity].
      simpl in *.
      destruct (Issue.closed_at i); [discriminate|].
      now destruct (Issue.accepted_at i). }
  split; [exact H|]. intros E. rewrite H, E. reflexivity.
Qed.

(** One issue created at 0:00, accepted at 1:00 and closed at 3:00 by
    technician 2: two hours in the rollup, three on the dashboard. *)
Lemma technician_avg_time_sample :
  let st := (Sample.db
              [Sample.issue 1 "ISS001" "closed" (Some 2) 0 (Some Sample.hour)
                 (Some (3 * Sample.hour)%Z)])%Z in
  avg_time st Sample.technician == 2 # 1 /\
  arithmetic_mean (handling_times st Sample.technician) == 2 # 1 /\
  arithmetic_mean (handling_times_from_creation st Sample.technician) == 3 # 1 /\
  avg_time st Sample.colleague == 0.
Proof.
  intros st.
  destruct (technician_avg_time_is_mean st Sample.technician eq_refl) as [H _].
  destruct (technician_avg_time_is_mean st Sample.colleague eq_refl) as [_ H0].
  split; [rewrite H; reflexivity|].
  split; [reflexivity|]. split; [reflexivity | exact (H0 eq_refl)].
Defined.

(** The guard on [accepted_at] in the sum is not mirrored in the divisor:
    on a store outside the invariant (a closed, assigned issue that was
    never accepted) the code divides the sum over the accepted issues by
    the number of all closed ones. *)
Example avg_time_outside_invariant :
  let st := (Sample.db
              [Sample.issue 1 "ISS001" "closed" (Some 2) 0 (Some Sample.hour)
                 (Some (3 * Sample.hour)%Z);
               Sample.issue 2 "ISS002" "closed" (Some 2) 0 None
                 (Some (3 * Sample.hour)%Z)])%Z in
  forallb accepted_if_assigned (issues st) = false /\
  avg_time st Sample.technician == 1 # 1 /\
  arithmetic_mean (handling_times st Sample.technician) == 2 # 1.
Proof. repeat split. Qed.

(** [py_round2] moves a value by at most half a hundredth. *)
Lemma hundredths (z : Z) : z # 100 == inject_Z z * (1 # 100).
Proof. unfold Qeq, inject_Z, Qmult. simpl. ring. Qed.

Lemma py_round2_close (q : Q) : Qabs (py_round2 q - q) <= 1 # 200.
Proof.
  apply Qabs_Qle_condition. unfold py_round2, round_half_even.
  set (x := q * (100 # 1)).
  pose proof (Qfloor_le x) as Hlo. pose proof (Qlt_floor x) as Hhi.
  rewrite inject_Z_plus in Hhi. change (inject_Z 1) with 1 in Hhi.
  assert (Hx : q == x * (1 # 100)) by (unfold x; field).
  destruct (Qcompare (x - inject_Z (Qfloor x)) (1 # 2)) eqn:C.
  - apply Qeq_alt in C.
    destruct (Z.even (Qfloor x)); rewrite hundredths, ?inject_Z_plus;
      change (inject_Z 1) with 1; lra.
  - apply Qlt_alt in C. rewrite hundredths. lra.
  - apply Qgt_alt in C. rewrite hundredths, inject_Z_plus.
    change (inject_Z 1) with 1. lra.
Qed.

(** The rollup has one row per active maintenance-service user, carrying
    that user's average rounded to two decimals. *)
Lemma analytics_by_technician_rows caller st tech :
  authorize caller ["supervisor"; "team_leader"; "manager"; "maintenance"] = true ->
  In tech (users st) ->
  User.service tech = "maintenance" -> User.is_active tech = true ->
  exists rows,
    response (analytics_by_technician caller st) = (technicians rows, 200%Z) /\
    In {| TechRow.technician := tech;
          TechRow.assigned_issues := count (assigned_to tech) (issues st);
          TechRow.closed_issues :=
            count (fun i => assigned_to tech i &&
                            String.eqb (Issue.status i) "closed") (issues st);
          TechRow.avg_resolution_time_hours := py_round2 (avg_time st tech) |}
       rows.
Proof.
  intros Ha Hin Hs Hact. unfold analytics_by_technician.
  rewrite (role_required_authorized _ _ _ _ Ha). simpl.
  eexists. split; [reflexivity|].
  apply in_map_iff. exists tech. split; [reflexivity|].
  apply filter_In. split; [assumption|]. rewrite Hs, Hact. reflexivity.
Qed.

Local Close Scope Q_scope.

(** * Proofs for the rest of the API *)

(** ** Every outcome of an issue endpoint is one of [served] *)

Lemma serve_served now req u st : served now u st (serve now req u st).
Proof.
  destruct req; cbn [serve];
    unfold create_issue, assign_issue, update_issue_status, close_issue,
      add_note, get_issues, analytics_dashboard, analytics_by_technician,
      role_required;
    repeat match goal with
      | |- served _ _ _ (if ?b then _ else _) => destruct b eqn:?
      | |- served _ _ _ (match ?x with _ => _ end) => destruct x eqn:?
      end;
    try (apply served_error; lia);
    try apply served_read.
  all: try match goal with
    | H : negb _ = false |- _ => apply negb_false_iff in H
    end.
  - now apply served_created.
  - now apply served_assigned.
  - now apply served_status.
  - now apply served_closed.
  - eapply served_noted; eassumption.
Qed.

Lemma map_update_first {A B : Type} (g : A -> B) (p : A -> bool) (f : A -> A)
    (l : list A) :
  (forall x, g (f x) = g x) -> map g (update_first p f l) = map g l.
Proof.
  intros Hg. induction l as [|x l IH]; simpl; [reflexivity|].
  destruct (p x); simpl; [now rewrite Hg | now rewrite IH].
Qed.

Lemma fold_left_max_ge (l : list Z) (a z : Z) :
  z <= a \/ In z l -> z <= fold_left Z.max l a.
Proof.
  revert a. induction l as [|x l IH]; intros a; simpl.
  - intros [H | []]. exact H.
  - intros [H | [-> | H]]; apply IH; auto; left; lia.
Qed.

Lemma next_pk_gt (l : list Z) (z : Z) : In z l -> z < next_pk l.
Proof.
  intros H. unfold next_pk.
  pose proof (fold_left_max_ge l 0 z (or_intror H)). lia.
Qed.

Lemma next_pk_fresh (l : list Z) : ~ In (next_pk l) l.
Proof. intros H. apply next_pk_gt in H. lia. Qed.

(** ** Errors commit nothing *)

(** X1.  A request to an issue endpoint that is answered with a status of
    400 or more leaves every table as it was and hands no event to the
    real-time channel. *)
Theorem serve_error_changes_nothing :
  forall now req u st,
    400 <= snd (response (serve now req u st)) ->
    store (serve now req u st) = st /\ emitted (serve now req u st) = [].
Proof.
  intros now req u st.
  pose proof (serve_served now req u st) as H.
  destruct H; cbn [response store emitted reply snd]; intros Hc;
    solve [split; reflexivity | exfalso; lia].
Qed.

Lemma serve_error_changes_nothing_sample :
  let st := Sample.db [Sample.issue 1 "ISS001" "assigned" (Some 3) 0 (Some 1) None] in
  let req := POST_close "ISS001" None None in
  snd (response (serve 9 req Sample.colleague st)) = 400 /\
  store (serve 9 req Sample.colleague st) = st.
Proof.
  intros st req. split; [reflexivity|].
  apply (serve_error_changes_nothing 9 req Sample.colleague st).
  vm_compute. discriminate.
Defined.

(** ** Issue ids *)

(** X2.  No request removes or renames an issue, and sequence ids stay
    pairwise distinct: the list of issue ids after a request is the list
    before it, or that list with one new id at its end. *)
Theorem serve_keeps_issue_ids_distinct :
  forall now req u st,
    NoDup (map Issue.issue_id (issues st)) ->
    let ids' := map Issue.issue_id (issues (store (serve now req u st))) in
    NoDup ids' /\
    (ids' = map Issue.issue_id (issues st) \/
     exists id, ids' = (map Issue.issue_id (issues st) ++ [id])%list /\
                ~ In id (map Issue.issue_id (issues st))).
Proof.
  intros now req u st Hnd ids'. subst ids'.
  destruct (serve_issues now req u st) as [E | [(i & E & Hid & _) | (p & f & E & Hf)]];
    cbv zeta in E; rewrite E.
  - split; [exact Hnd | now left].
  - assert (Hfresh : ~ In (Issue.issue_id i) (map Issue.issue_id (issues st))).
    { intros Hin. apply in_map_iff in Hin. destruct Hin as (j & Ej & Hj).
      apply (new_issue_id_fresh (issues st) j Hj). congruence. }
    rewrite map_app. simpl. split.
    + apply NoDup_app; [exact Hnd | repeat constructor; intros [] |].
      intros x Hx [<- | []]. contradiction.
    + right. exists (Issue.issue_id i). split; [reflexivity | exact Hfresh].
  - rewrite map_update_first by (intros x; apply (issue_write_keeps f x Hf)).
    split; [exact Hnd | now left].
Qed.

Lemma serve_keeps_issue_ids_distinct_sample :
  let data := {| NewIssue.machine_id := Some (JString "MACH001");
                 NewIssue.description := Some (JString "Belt torn");
                 NewIssue.urgency := Some (JString "low") |} in
  NoDup (map Issue.issue_id
           (issues (store (serve 11 (POST_issues data) Sample.producer
                             (Sample.db Sample.seven))))).
Proof.
  intros data.
  apply (serve_keeps_issue_ids_distinct 11 (POST_issues data) Sample.producer
           (Sample.db Sample.seven)).
  simpl. repeat constructor; simpl; intuition discriminate.
Defined.

(** ** Status and urgency stay in their enumerations *)

Lemma served_keeps_fields_valid now u st out :
  served now u st out -> fields_valid st -> fields_valid (store out).
Proof.
  unfold fields_valid.
  intros H Hv; destruct H;
    cbn [store reply add_note_row commit_issue with_notes with_issues issues];
    try exact Hv.
  - rewrite forallb_app, Hv. unfold issue_fields_ok. simpl.
    match goal with H : Py.mem g _ = true |- _ => simpl in H; rewrite H end.
    reflexivity.
  - apply forallb_update_first; [|exact Hv].
    intros x Hx. unfold issue_fields_ok in *. simpl.
    apply andb_true_iff in Hx. apply Hx.
  - apply forallb_update_first; [|exact Hv].
    intros x Hx. unfold issue_fields_ok in *. simpl.
    apply andb_true_iff in Hx. destruct Hx as [_ Hx].
    apply andb_true_iff. split; assumption.
  - apply forallb_update_first; [|exact Hv].
    intros x Hx. unfold issue_fields_ok, closing in *.
    apply andb_true_iff in Hx. destruct Hx as [_ Hx].
    destruct (Py.truthy pd); simpl; exact Hx.
Qed.

(** X3.  Along every sequence of requests the status of every issue stays
    one of [reported], [assigned], [in_progress], [closed] and its urgency
    one of [low], [medium], [high]. *)
Theorem run_keeps_fields_valid :
  forall reqs st, fields_valid st -> fields_valid (run reqs st).
Proof.
  induction reqs as [|[[now req] u] reqs IH]; intros st H; simpl; [exact H|].
  apply IH. apply (served_keeps_fields_valid now u st); [apply serve_served | exact H].
Qed.

Lemma run_keeps_fields_valid_sample :
  let data := {| NewIssue.machine_id := Some (JString "MACH001");
                 NewIssue.description := Some (JString "Belt torn");
                 NewIssue.urgency := Some (JString "urgent") |} in
  let reqs := [(1, POST_issues data, Sample.producer);
               (2, PATCH_status "ISS001" (Some "done"), Sample.supervisor);
               (3, POST_assign "ISS001", Sample.technician)] in
  let st := Sample.db [Sample.issue 1 "ISS001" "reported" None 0 None None] in
  fields_valid (run reqs st) /\
  map Issue.status (issues (run reqs st)) = ["assigned"].
Proof.
  intros data reqs st. split; [|reflexivity].
  apply (run_keeps_fields_valid reqs st). reflexivity.
Defined.

(** ** Notes are append-only *)

(** X4.  No request edits or deletes a note: the notes table after a
    request is the table before it followed by at most one new note, and
    the key of the new note is not the key of a note already there. *)
Theorem serve_appends_notes :
  forall now req u st,
    exists added,
      notes (store (serve now req u st)) = (notes st ++ added)%list /\
      (List.length added <= 1)%nat /\
      forall n, In n added -> ~ In (Note.id n) (map Note.id (notes st)).
Proof.
  intros now req u st.
  pose proof (serve_served now req u st) as H.
  destruct H;
    cbn [store reply add_note_row commit_issue with_notes with_issues notes];
    first
      [ exists (@nil Note.t); rewrite app_nil_r; split; [reflexivity|];
        split; [simpl; lia | intros ? Hn; destruct Hn]
      | eexists (cons _ nil); split; [reflexivity|]; split; [simpl; lia|];
        intros ? [<- | []] Hm; cbn [Note.id] in Hm;
        apply next_pk_fresh in Hm; exact Hm ].
Qed.

(** ** A closed issue *)

Lemma first_issue_after_write st issue_id issue f now text a b :
  first_issue st issue_id = Some issue ->
  Issue.issue_id (f issue) = Issue.issue_id issue ->
  first_issue (add_note_row now text a b (commit_issue issue_id f st)) issue_id =
    Some (f issue).
Proof.
  intros Hfind Hid. unfold first_issue, add_note_row, commit_issue in *.
  cbn [issues with_notes with_issues].
  apply find_update_first; [exact Hfind|].
  rewrite Hid. apply String.eqb_eq. now apply first_issue_id with (st := st).
Qed.

(** X5.  Once an issue has been closed, closing it again and assigning it
    are both refused with status 400, whoever of the permitted callers
    asks, and neither request changes the store. *)
Theorem closed_issue_refuses_close_and_assign :
  forall now issue_id resolution problem_description u st,
    let out := close_issue now issue_id resolution problem_description u st in
    snd (response out) = 200 ->
    forall now' resolution' problem_description' u',
      authorize u' ["maintenance"; "supervisor"; "team_leader"] = true ->
      close_issue now' issue_id resolution' problem_description' u' (store out) =
        reply (error "Issue is already closed") 400 (store out) /\
      assign_issue now' issue_id u' (store out) =
        reply (error "Issue cannot be assigned in current status") 400 (store out).
Proof.
  intros now issue_id resolution problem_description u st out Hok
    now' resolution' problem_description' u' Ha.
  assert (Hf : exists issue, first_issue (store out) issue_id = Some issue /\
                             Issue.status issue = "closed").
  { subst out. revert Hok. unfold close_issue.
    destruct (authorize u ["maintenance"; "supervisor"; "team_leader"]) eqn:Hu;
      [rewrite (role_required_authorized _ _ _ _ Hu)
      |rewrite (role_required_denied _ _ _ _ Hu); simpl; discriminate].
    destruct (first_issue st issue_id) as [issue|] eqn:Hfind; [|simpl; discriminate].
    destruct (String.eqb (Issue.status issue) "closed"); [simpl; discriminate|].
    destruct (String.eqb (User.role u) "maintenance" && not_assigned_to issue u);
      [simpl; discriminate|].
    destruct resolution as [r|]; [|simpl; discriminate].
    destruct (String.eqb r ""); [simpl; discriminate|].
    intros _. exists (closing now r problem_description issue). cbn [store]. split.
    - apply first_issue_after_write; [exact Hfind|].
      unfold closing. now destruct (Py.truthy problem_description).
    - unfold closing. now destruct (Py.truthy problem_description). }
  destruct Hf as (issue & Hfind & Hs).
  unfold close_issue, assign_issue.
  rewrite !(role_required_authorized _ _ _ _ Ha), Hfind, Hs. split; reflexivity.
Qed.

Lemma closed_issue_refuses_close_and_assign_sample :
  let st := Sample.db [Sample.issue 1 "ISS001" "assigned" (Some 2) 0 (Some 1) None] in
  let out := close_issue 9 "ISS001" (Some "Replaced seal") None Sample.technician st in
  snd (response (close_issue 12 "ISS001" (Some "Again") None Sample.supervisor
                   (store out))) = 400 /\
  snd (response (assign_issue 12 "ISS001" Sample.colleague (store out))) = 400.
Proof.
  intros st out.
  destruct (closed_issue_refuses_close_and_assign 9 "ISS001" (Some "Replaced seal")
              None Sample.technician st eq_refl 12 (Some "Again") None
              Sample.supervisor eq_refl) as [Hc _].
  destruct (closed_issue_refuses_close_and_assign 9 "ISS001" (Some "Replaced seal")
              None Sample.technician st eq_refl 12 None None
              Sample.colleague eq_refl) as [_ Ha].
  fold out in Hc, Ha. rewrite Hc, Ha. split; reflexivity.
Defined.

(** ** What the reporter filed is never rewritten *)

Lemma issue_write_keeps_report (f : Issue.t -> Issue.t) (i : Issue.t) :
  issue_write f -> report_of (f i) = report_of i.
Proof.
  intros [tech now | s | now r pd]; unfold report_of; try reflexivity.
  unfold closing. now destruct (Py.truthy pd).
Qed.

(** X6.  No request rewrites the primary key, id, machine reference,
    description, urgency, reporter or creation time of an issue, and none
    deletes or reorders issues: row by row these columns are after a
    request what they were before it, with at most one new row at the end,
    reported by the caller at the time of the request. *)
Theorem serve_keeps_reports :
  forall now req u st,
    let before := map report_of (issues st) in
    let after := map report_of (issues (store (serve now req u st))) in
    after = before \/
    exists i, after = (before ++ [report_of i])%list /\
              Issue.reporter_id i = User.id u /\ Issue.created_at i = now.
Proof.
  intros now req u st before after. subst before after.
  pose proof (serve_served now req u st) as H.
  destruct H;
    cbn [store reply add_note_row commit_issue with_notes with_issues issues];
    try (left; reflexivity);
    try (left; apply map_update_first; intros x; apply issue_write_keeps_report;
         constructor).
  right. eexists. rewrite map_app. split; [reflexivity|]. split; reflexivity.
Qed.

(** ** Technicians and statuses *)

Lemma serve_keeps_technicians now req u st :
  is_status_update req = false ->
  technicians_on_taken_issues st ->
  technicians_on_taken_issues (store (serve now req u st)).
Proof.
  unfold technicians_on_taken_issues. intros Hreq Hv.
  destruct req; try discriminate Hreq; cbn [serve];
    unfold create_issue, assign_issue, close_issue, add_note, get_issues,
      analytics_dashboard, analytics_by_technician, role_required;
    repeat match goal with
      | |- context [store (if ?b then _ else _)] => destruct b
      | |- context [store (match ?x with _ => _ end)] => destruct x
      end;
    cbn [store reply add_note_row commit_issue with_notes with_issues issues];
    try exact Hv.
  - rewrite forallb_app, Hv. reflexivity.
  - apply forallb_update_first; [|exact Hv]. reflexivity.
  - apply forallb_update_first; [|exact Hv].
    intros x _. unfold technician_status_ok, closing.
    destruct (Py.truthy problem_description); simpl;
      now destruct (Issue.assigned_tech_id x).
Qed.

(** X7.  As long as the generic status update is not used, an issue that
    has a technician is in [assigned], [in_progress] or [closed]: create,
    assign, close and add-note keep it so along every sequence of
    requests. *)
Theorem run_keeps_technicians_on_taken_issues :
  forall reqs st,
    forallb (fun req => negb (is_status_update req)) (requests_of reqs) = true ->
    technicians_on_taken_issues st ->
    technicians_on_taken_issues (run reqs st).
Proof.
  induction reqs as [|[[now req] u] reqs IH]; intros st Hr H; simpl; [exact H|].
  simpl in Hr. apply andb_true_iff in Hr. destruct Hr as [Hreq Hr].
  apply IH; [exact Hr|].
  apply serve_keeps_technicians; [now apply negb_true_iff | exact H].
Qed.

Lemma run_keeps_technicians_on_taken_issues_sample :
  let reqs := [(1, POST_assign "ISS001", Sample.technician);
               (2, POST_notes "ISS001" (Some "Waiting for parts"), Sample.producer);
               (3, POST_close "ISS001" (Some "Replaced seal") None, Sample.supervisor)] in
  let st := Sample.db [Sample.issue 1 "ISS001" "reported" None 0 None None] in
  technicians_on_taken_issues (run reqs st) /\
  map Issue.status (issues (run reqs st)) = ["closed"] /\
  map Issue.assigned_tech_id (issues (run reqs st)) = [Some 2].
Proof.
  intros reqs st. split; [|split; reflexivity].
  apply (run_keeps_technicians_on_taken_issues reqs st); reflexivity.
Defined.

(** The generic status update is the way out of that invariant: it moves
    an assigned issue back to [reported] and leaves its technician. *)
Example status_update_keeps_technician :
  let st := Sample.db [Sample.issue 1 "ISS001" "assigned" (Some 2) 0 (Some 1) None] in
  let st' := store (update_issue_status 5 "ISS001" (Some "reported")
                      Sample.supervisor st) in
  map Issue.status (issues st') = ["reported"] /\
  map Issue.assigned_tech_id (issues st') = [Some 2] /\
  forallb technician_status_ok (issues st') = false.
Proof. repeat split. Qed.

(** ** The order of a listing *)

Lemma row_before_newest_first (a b : Row) :
  row_before a b = true <-> newest_first a b.
Proof.
  unfold row_before, newest_first.
  rewrite orb_true_iff, andb_true_iff, Z.ltb_lt, Z.eqb_eq, Z.leb_le. tauto.
Qed.

Lemma newest_first_total (a b : Row) :
  row_before a b = false -> newest_first b a.
Proof.
  intros H. unfold newest_first.
  destruct (row_before a b) eqn:E; [discriminate|]. clear H.
  unfold row_before in E. apply orb_false_iff in E. destruct E as [E1 E2].
  apply Z.ltb_ge in E1. apply andb_false_iff in E2.
  destruct E2 as [E2 | E2]; [apply Z.eqb_neq in E2 | apply Z.leb_gt in E2]; lia.
Qed.

Lemma newest_first_trans (a b c : Row) :
  newest_first a b -> newest_first b c -> newest_first a c.
Proof. unfold newest_first. lia. Qed.

Lemma insert_row_sorted (r : Row) (l : list Row) :
  StronglySorted newest_first l -> StronglySorted newest_first (insert_row r l).
Proof.
  induction 1 as [|x l Hl IH Hx]; simpl.
  - repeat constructor.
  - destruct (row_before r x) eqn:E.
    + apply row_before_newest_first in E.
      constructor; [now constructor|]. constructor; [exact E|].
      eapply Forall_impl; [|exact Hx]. intros y Hy.
      now apply newest_first_trans with x.
    + apply newest_first_total in E. constructor; [exact IH|].
      apply Forall_forall. intros y Hy. apply in_insert_row in Hy.
      destruct Hy as [-> | Hy]; [exact E|].
      rewrite Forall_forall in Hx. now apply Hx.
Qed.

Lemma order_by_sorted (l : list Row) : StronglySorted newest_first (order_by l).
Proof.
  unfold order_by. induction l as [|r l IH]; simpl; [constructor|].
  now apply insert_row_sorted.
Qed.

Lemma skipn_sorted {A : Type} (R : A -> A -> Prop) (k : nat) (l : list A) :
  StronglySorted R l -> StronglySorted R (skipn k l).
Proof.
  revert l. induction k as [|k IH]; intros l H; simpl; [exact H|].
  destruct l as [|x l]; [constructor|]. apply IH. now inversion H.
Qed.

Lemma firstn_sorted {A : Type} (R : A -> A -> Prop) (k : nat) (l : list A) :
  StronglySorted R l -> StronglySorted R (firstn k l).
Proof.
  revert l. induction k as [|k IH]; intros l H; simpl; [constructor|].
  destruct l as [|x l]; [constructor|]. inversion H as [|? ? Hl Hx]; subst.
  constructor; [now apply IH|].
  apply Forall_forall. intros y Hy. rewrite Forall_forall in Hx. apply Hx.
  rewrite <- (firstn_skipn k l). apply in_or_app. now left.
Qed.

(** X8.  Every page of a listing is ordered newest first, and rows created
    at the same instant are ordered by urgency rank (high, medium, low,
    other): each row stands in that order to every row after it. *)
Theorem get_issues_sorted :
  forall args u st,
    StronglySorted newest_first (listing (get_issues args u st)).
Proof.
  intros args u st. rewrite listing_get_issues.
  destruct (out_of_range (Args.page args) (Args.per_page args)); [constructor|].
  unfold paginate. apply firstn_sorted, skipn_sorted, order_by_sorted.
Qed.

(** ** The dashboard *)

Local Open Scope Q_scope.

Lemma count_split {A : Type} (p : A -> bool) (l : list A) :
  (count p l + count (fun x => negb (p x)) l = List.length l)%nat.
Proof.
  unfold count. induction l as [|x l IH]; simpl; [reflexivity|].
  destruct (p x); simpl; lia.
Qed.

Lemma count_le {A : Type} (p q : A -> bool) (l : list A) :
  (forall x, p x = true -> q x = true) -> (count p l <= count q l)%nat.
Proof.
  intros H. unfold count. induction l as [|x l IH]; simpl; [lia|].
  destruct (p x) eqn:E; [rewrite (H x E); simpl; lia|].
  destruct (q x); simpl; lia.
Qed.

(** X9.  The dashboard answers 200 to every caller and writes nothing.
    Its counts are consistent: the open issues and the issues with status
    [closed] add up to the total, the high-priority count (high urgency,
    still [reported]) is at most the open count, and the reported average
    is a whole number of hundredths within 0.005 of the computed one. *)
Theorem analytics_dashboard_consistent :
  forall now u st,
    exists s,
      analytics_dashboard now u st = reply (dashboard s) 200%Z st /\
      (Summary.open_issues s +
         count (fun i => String.eqb (Issue.status i) "closed") (issues st) =
       Summary.total_issues s)%nat /\
      (Summary.high_priority s <= Summary.open_issues s)%nat /\
      (Summary.issues_today s <= Summary.total_issues s)%nat /\
      (exists k : Z, Summary.avg_resolution_time_hours s = k # 100) /\
      Qabs (Summary.avg_resolution_time_hours s - avg_resolution_time st) <= 1 # 200.
Proof.
  intros now u st. eexists. split; [reflexivity|].
  cbn [Summary.open_issues Summary.total_issues Summary.high_priority
       Summary.issues_today Summary.avg_resolution_time_hours].
  split; [|split; [|split; [|split]]].
  - rewrite Nat.add_comm.
    apply (count_split (fun i => String.eqb (Issue.status i) "closed")).
  - apply count_le. intros i H. apply andb_true_iff in H. destruct H as [_ H].
    apply String.eqb_eq in H. now rewrite H.
  - unfold count. apply filter_length_le.
  - eexists. reflexivity.
  - apply py_round2_close.
Qed.

Local Close Scope Q_scope.

(** ** Single fetch and notes *)

Lemma registered_role_not_production (u : User.t) :
  Py.mem (User.role u) valid_roles = true ->
  String.eqb (User.role u) "production" = false /\
  String.eqb (User.role u) "maintenance" = false.
Proof.
  intros H. apply mem_In in H. simpl in H.
  destruct H as [<- | [<- | [<- | [<- | []]]]]; split; reflexivity.
Qed.

(** X10.  A caller whose role is one that registration accepts is never
    denied a single issue: whoever reported it, fetching an existing issue
    by id answers 200 with the row and its notes, and an unknown id
    answers 404. *)
Theorem get_issue_open_to_registered_roles :
  forall issue_id u st,
    Py.mem (User.role u) valid_roles = true ->
    match first_issue st issue_id with
    | Some issue => get_issue issue_id u st = (inl (issue, notes_of st issue), 200)
    | None => get_issue issue_id u st = (inr "Issue not found", 404)
    end.
Proof.
  intros issue_id u st Hr. unfold get_issue.
  destruct (first_issue st issue_id) as [issue|]; [|reflexivity].
  destruct (registered_role_not_production u Hr) as [-> _]. reflexivity.
Qed.

(** A production-service caller reads by id an issue that the listing
    withholds from them. *)
Lemma get_issue_open_to_registered_roles_sample :
  let other := {| User.id := 6; User.user_id := "PROD002"; User.name := "Second";
                  User.service := "production"; User.role := "technician";
                  User.is_active := true |} in
  let st := Sample.db [Sample.issue 1 "ISS001" "reported" None 0 None None] in
  snd (get_issue "ISS001" other st) = 200 /\
  listing (get_issues Sample.no_filters other st) = [].
Proof.
  intros other st. split; [|reflexivity].
  pose proof (get_issue_open_to_registered_roles "ISS001" other st eq_refl) as H.
  simpl in H. rewrite H. reflexivity.
Defined.

(** X11.  A caller with a registered role can annotate any existing issue:
    a non-empty text is answered 201, exactly one note with that text, the
    caller as author and the issue's key is appended, the issue table is
    untouched and one [note_added] event for that issue is emitted. *)
Theorem add_note_appends :
  forall now issue_id text u st issue,
    Py.mem (User.role u) valid_roles = true ->
    first_issue st issue_id = Some issue ->
    text <> "" ->
    let out := add_note now issue_id (Some text) u st in
    exists n,
      response out = (note_message "Note added successfully" n, 201) /\
      notes (store out) = (notes st ++ [n])%list /\
      issues (store out) = issues st /\
      emitted out = [note_added issue_id n] /\
      Note.text n = text /\ Note.author_id n = User.id u /\
      Note.issue_id n = Issue.id issue /\ Note.created_at n = now.
Proof.
  intros now issue_id text u st issue Hr Hfind Ht out. subst out.
  unfold add_note. rewrite Hfind.
  destruct (registered_role_not_production u Hr) as [-> _]. cbn [andb].
  destruct (String.eqb_spec text "") as [E | _]; [contradiction|].
  eexists. split; [reflexivity|]. cbn [store emitted add_note_row with_notes notes issues].
  rewrite (first_issue_id _ _ _ Hfind). repeat split.
Qed.

Lemma add_note_appends_sample :
  let st := Sample.db [Sample.issue 1 "ISS001" "reported" None 0 None None] in
  exists n,
    notes (store (add_note 4 "ISS001" (Some "Leak is growing") Sample.colleague st)) = [n] /\
    Note.text n = "Leak is growing" /\ Note.author_id n = 3.
Proof.
  intros st.
  destruct (add_note_appends 4 "ISS001" "Leak is growing" Sample.colleague st
              (Sample.issue 1 "ISS001" "reported" None 0 None None)
              eq_refl eq_refl) as (n & _ & Hn & _ & _ & Ht & Ha & _).
  - discriminate.
  - exists n. split; [exact Hn | split; [exact Ht | exact Ha]].
Defined.

Lemma insert_note_perm (n : Note.t) (l : list Note.t) :
  Permutation (n :: l) (insert_note n l).
Proof.
  induction l as [|x l IH]; simpl; [reflexivity|].
  destruct (Note.created_at n <=? Note.created_at x); [reflexivity|].
  rewrite perm_swap. now constructor.
Qed.

Lemma insert_note_sorted (n : Note.t) (l : list Note.t) :
  StronglySorted (fun a b => Note.created_at a <= Note.created_at b) l ->
  StronglySorted (fun a b => Note.created_at a <= Note.created_at b)
    (insert_note n l).
Proof.
  induction 1 as [|x l Hl IH Hx]; simpl.
  - repeat constructor.
  - destruct (Note.created_at n <=? Note.created_at x) eqn:E.
    + apply Z.leb_le in E. constructor; [now constructor|].
      constructor; [exact E|].
      eapply Forall_impl; [|exact Hx]. intros y Hy. simpl in *. lia.
    + apply Z.leb_gt in E. constructor; [exact IH|].
      apply Forall_forall. intros y Hy.
      apply (Permutation_in _ (Permutation_sym (insert_note_perm n l))) in Hy.
      destruct Hy as [<- | Hy]; [lia|].
      rewrite Forall_forall in Hx. now apply Hx.
Qed.

(** X12.  The notes a fetched issue carries are the notes of that issue,
    all of them and no others, each as often as the table holds it, in
    ascending order of creation time. *)
Theorem notes_of_issue_sorted :
  forall st issue,
    Permutation
      (filter (fun n => Note.issue_id n =? Issue.id issue) (notes st))
      (notes_of st issue) /\
    StronglySorted (fun a b => Note.created_at a <= Note.created_at b)
      (notes_of st issue).
Proof.
  intros st issue. unfold notes_of.
  induction (filter (fun n => Note.issue_id n =? Issue.id issue) (notes st))
    as [|n l [IHp IHs]]; simpl.
  - split; constructor.
  - split.
    + rewrite <- insert_note_perm. now constructor.
    + now apply insert_note_sorted.
Qed.

(** ** Machines *)

Lemma role_gate_authorized {A S : Type} (roles : list string) (st : S)
    (f : User.t -> Answer A * S) (u : User.t) :
  authorize u roles = true -> role_gate roles st f u = f u.
Proof.
  unfold authorize, role_gate. intros H. apply orb_true_iff in H.
  destruct (Py.mem (User.role u) roles), (Py.mem (User.service u) roles);
    simpl; try reflexivity.
  destruct H; discriminate.
Qed.

Lemma role_gate_denied {A S : Type} (roles : list string) (st : S)
    (f : User.t -> Answer A * S) (u : User.t) :
  authorize u roles = false ->
  role_gate roles st f u = ((inr "Insufficient permissions", 403), st).
Proof.
  unfold authorize, role_gate. intros H.
  apply orb_false_iff in H. destruct H as [-> ->]. reflexivity.
Qed.

Lemma digits_of_digits (s : string) : Py.all_digits s = true -> digits_of s = s.
Proof.
  induction s as [|c s IH]; simpl; [reflexivity|].
  intros H. apply andb_true_iff in H. destruct H as [-> H]. now rewrite IH.
Qed.

Lemma digits_of_machine_id (n : N) : digits_of (machine_id_of n) = Py.format_03d n.
Proof.
  unfold machine_id_of. simpl. apply digits_of_digits, all_digits_format.
Qed.

Lemma machine_numbers_In (l : list Machine.t) (m : Machine.t) (n : N) :
  In m l -> Machine.machine_id m = machine_id_of n -> In n (machine_numbers l).
Proof.
  intros Hin E. unfold machine_numbers. apply in_flat_map.
  exists m. split; [assumption|]. rewrite E, digits_of_machine_id.
  destruct (String.eqb_spec (Py.format_03d n) "") as [E0 | _].
  - now apply format_not_empty in E0.
  - rewrite int_format. now left.
Qed.

Lemma first_machine_number_gt (l : list Machine.t) (n : N) :
  In n (machine_numbers l) -> (n < first_machine_number l)%N.
Proof.
  intros H. unfold first_machine_number.
  destruct l as [|m l]; [contradiction|].
  destruct (machine_numbers (m :: l)) as [|k ks]; [contradiction|].
  rewrite max_maximum. apply maximum_ge in H. lia.
Qed.

Lemma first_machine_number_free (st : Store) :
  first_machine st (machine_id_of (first_machine_number (machines st))) = None.
Proof.
  unfold first_machine.
  destruct (find _ (machines st)) as [m|] eqn:E; [|reflexivity].
  apply find_some in E. destruct E as [Hin E]. apply String.eqb_eq in E.
  pose proof (first_machine_number_gt _ _ (machine_numbers_In _ _ _ Hin E)). lia.
Qed.

Lemma first_machine_none (st : Store) (machine_id : string) :
  first_machine st machine_id = None ->
  ~ In machine_id (map Machine.machine_id (machines st)).
Proof.
  unfold first_machine. intros H Hin. apply in_map_iff in Hin.
  destruct Hin as (m & E & Hm).
  apply (find_none _ _ H) in Hm. rewrite E, String.eqb_refl in Hm. discriminate.
Qed.

(** X13.  A permitted caller who names the machine always gets it created
    (201), appended to the table under the id [MACH] followed by the next
    number: one more than the largest number read off the existing ids,
    three digits at least.  That id is never in use, so the re-check loop
    never advances, and machine ids stay pairwise distinct. *)
Theorem create_machine_fresh_id :
  forall data u st name,
    authorize u ["manager"; "supervisor"; "team_leader"] = true ->
    NewMachine.name data = Some name ->
    exists m,
      create_machine data u st =
        ((inl m, 201), with_machines (machines st ++ [m]) st) /\
      Machine.machine_id m = machine_id_of (first_machine_number (machines st)) /\
      Machine.name m = name /\
      ~ In (Machine.machine_id m) (map Machine.machine_id (machines st)) /\
      (NoDup (map Machine.machine_id (machines st)) ->
       NoDup (map Machine.machine_id (machines st ++ [m]))).
Proof.
  intros data u st name Ha Hn. unfold create_machine.
  rewrite (role_gate_authorized _ _ _ _ Ha), Hn.
  cbn [free_machine_number]. rewrite first_machine_number_free.
  eexists. split; [reflexivity|]. cbn [Machine.machine_id Machine.name].
  pose proof (first_machine_none _ _ (first_machine_number_free st)) as Hfresh.
  repeat split; [exact Hfresh|].
  intros Hnd. rewrite map_app. simpl.
  apply NoDup_app; [exact Hnd | repeat constructor; intros [] |].
  intros x Hx [<- | []]. contradiction.
Qed.

Lemma create_machine_fresh_id_sample :
  let data := {| NewMachine.name := Some "Lathe"; NewMachine.location := None;
                 NewMachine.status := None |} in
  exists m,
    create_machine data Sample.supervisor (Sample.db []) =
      ((inl m, 201), with_machines [Sample.press; m] (Sample.db [])) /\
    Machine.machine_id m = "MACH002" /\ Machine.status m = "active".
Proof.
  intros data.
  destruct (create_machine_fresh_id data Sample.supervisor (Sample.db []) "Lathe"
              eq_refl eq_refl) as (m & E & Hid & _).
  exists m. split; [exact E|]. split; [exact Hid|].
  unfold create_machine in E. rewrite role_gate_authorized in E by reflexivity.
  simpl in E. injection E as <-. reflexivity.
Defined.

(** Without a name nothing is created. *)
Lemma create_machine_needs_name data u st :
  NewMachine.name data = None ->
  snd (create_machine data u st) = st /\ 400 <= snd (fst (create_machine data u st)).
Proof.
  intros Hn. unfold create_machine, role_gate. rewrite Hn.
  destruct (_ && _); simpl; split; (reflexivity || lia).
Qed.

Lemma remove_first_no_match {A B : Type} (g : A -> B) (p : A -> bool) (k : B)
    (l : list A) :
  (forall x, p x = true <-> g x = k) ->
  NoDup (map g l) ->
  (exists x, In x l /\ g x = k) ->
  forall y, In y (remove_first p l) -> g y <> k.
Proof.
  intros Hp. induction l as [|x l IH]; simpl; intros Hnd Hex y Hy; [contradiction|].
  inversion Hnd as [|? ? Hx Hl]; subst.
  destruct (p x) eqn:E.
  - apply Hp in E. intros Ey. apply Hx. rewrite E, <- Ey. now apply in_map.
  - destruct Hy as [<- | Hy].
    + intros Ey. apply Hp in Ey. congruence.
    + apply IH; [exact Hl| |exact Hy].
      destruct Hex as (z & [<- | Hz] & Ez); [|now exists z].
      apply Hp in Ez. congruence.
Qed.

(** X14.  Deleting a machine deletes none of its issues and hides them all:
    with distinct machine ids, after a successful delete no listing, for
    any caller and any query, shows an issue filed against the deleted
    machine id, while the issue table is what it was. *)
Theorem delete_machine_hides_issues :
  forall machine_id u st,
    NoDup (map Machine.machine_id (machines st)) ->
    snd (fst (delete_machine machine_id u st)) = 200 ->
    let st' := snd (delete_machine machine_id u st) in
    issues st' = issues st /\
    forall args caller r,
      In r (listing (get_issues args caller st')) ->
      Issue.machine_id (fst r) <> machine_id.
Proof.
  intros machine_id u st Hnd. unfold delete_machine.
  destruct (authorize u ["manager"]) eqn:Ha;
    [rewrite (role_gate_authorized _ _ _ _ Ha)
    |rewrite (role_gate_denied _ _ _ _ Ha); simpl; discriminate].
  destruct (first_machine st machine_id) as [m|] eqn:Hfind; [|simpl; discriminate].
  intros _. cbv zeta. cbn [snd]. split; [reflexivity|].
  intros args caller r Hr. apply in_listing_join in Hr.
  apply join_machine_inv in Hr.
  destruct Hr as (_ & m' & Hm' & E & _). cbn [machines with_machines] in Hm'.
  rewrite <- E.
  apply (remove_first_no_match Machine.machine_id
           (fun m => String.eqb (Machine.machine_id m) machine_id) machine_id
           (machines st)); [|exact Hnd| |exact Hm'].
  - intros x. apply String.eqb_eq.
  - unfold first_machine in Hfind. apply find_some in Hfind.
    destruct Hfind as [Hin Hid]. apply String.eqb_eq in Hid. now exists m.
Qed.

Lemma delete_machine_hides_issues_sample :
  let manager := {| User.id := 1; User.user_id := "ADMIN001";
                    User.name := "System Administrator";
                    User.service := "maintenance"; User.role := "manager";
                    User.is_active := true |} in
  let st := Sample.db [Sample.issue 1 "ISS001" "reported" None 0 None None] in
  let st' := snd (delete_machine "MACH001" manager st) in
  List.length (listing (get_issues Sample.no_filters Sample.technician st)) = 1%nat /\
  List.length (issues st') = 1%nat /\
  Forall (fun r => Issue.machine_id (fst r) <> "MACH001")
    (listing (get_issues Sample.no_filters Sample.technician st')).
Proof.
  intros manager st st'. split; [reflexivity|]. split; [reflexivity|].
  apply Forall_forall. intros r Hr.
  refine (proj2 (delete_machine_hides_issues "MACH001" manager st _ eq_refl)
            Sample.no_filters Sample.technician r Hr).
  simpl. repeat constructor. intros [].
Defined.

(** ** Creating an issue *)

(** X15.  What [create_issue] answers to a body whose values are strings
    or [null].  403 exactly when the caller fails the role gate (production
    service, or role supervisor or team leader).  Past that check: 400 when
    one of [machine_id], [description], [urgency] is absent or the urgency
    is not the string [low], [medium] or [high] ([null] included); 500 when
    the three keys are present and the urgency is valid but [machine_id] or
    [description] is [null], which the database refuses at the commit; 201
    in the remaining case, the three keys given strings and a valid
    urgency.  Every answer other than 201 leaves the store as it was and
    emits nothing. *)
Theorem create_issue_answers :
  forall now data u st,
    let out := create_issue now data u st in
    let code := snd (response out) in
    let passes := authorize u ["production"; "supervisor"; "team_leader"] = true in
    let complete :=
      NewIssue.machine_id data <> None /\ NewIssue.description data <> None /\
      NewIssue.urgency data <> None in
    let urgency_ok :=
      exists g, NewIssue.urgency data = Some (JString g) /\
                In g ["low"; "medium"; "high"] in
    let null_column :=
      NewIssue.machine_id data = Some JNull \/
      NewIssue.description data = Some JNull in
    (code = 403 <-> ~ passes) /\
    (code = 400 <-> passes /\ (~ complete \/ ~ urgency_ok)) /\
    (code = 500 <-> passes /\ complete /\ urgency_ok /\ null_column) /\
    (code = 201 <-> passes /\ complete /\ urgency_ok /\ ~ null_column) /\
    (code <> 201 -> store out = st /\ emitted out = []).
Proof.
  intros now [m d g] u st out code passes complete urgency_ok null_column.
  assert (Hu : urgency_ok <->
               match g with
               | Some (JString s) => Py.mem s ["low"; "medium"; "high"] = true
               | _ => False
               end).
  { subst urgency_ok. cbn [NewIssue.urgency]. split.
    - intros (s & -> & Hs). now apply mem_In.
    - destruct g as [[|s]|]; try contradiction.
      intros Hs. exists s. split; [reflexivity | now apply mem_In]. }
  clearbody urgency_ok.
  subst code out passes complete null_column. unfold create_issue.
  cbn [NewIssue.machine_id NewIssue.description NewIssue.urgency].
  destruct (authorize u ["production"; "supervisor"; "team_leader"]) eqn:Ha;
    [rewrite (role_required_authorized _ _ _ _ Ha)
    |rewrite (role_required_denied _ _ _ _ Ha)].
  - destruct m as [[|m]|], d as [[|d]|], g as [[|g]|];
      cbn [json_in negb response reply snd store emitted];
      try destruct (Py.mem g ["low"; "medium"; "high"]);
      cbn [negb response reply snd store emitted];
      intuition (discriminate || congruence).
  - cbn [response reply snd store emitted].
    intuition (discriminate || congruence).
Qed.

(** ** Query filters *)

Lemma split_no_separator (s : string) :
  Py.contains s "," = false -> Py.split "," s = [s].
Proof.
  induction s as [|c s IH]; [reflexivity|].
  cbn [Py.contains Py.split]. intros H.
  apply orb_false_iff in H. destruct H as [H1 H2].
  rewrite prefix_strip in H1. cbn [strip_prefix] in H1.
  rewrite Ascii.eqb_sym. destruct (Ascii.eqb "," c); [discriminate|].
  now rewrite (IH H2).
Qed.

(** X16.  Every row of a listing passes every filter the query gives: its
    status is one of the comma-separated values of [status], its urgency
    and machine id are the ones asked for, it was created on the day asked
    for, and it is an issue of the store with the name of a registered
    machine of that id.  An empty filter value filters nothing. *)
Theorem get_issues_filters :
  forall args u st r,
    In r (listing (get_issues args u st)) ->
    (forall v, Args.status args = Some v -> v <> "" ->
               In (Issue.status (fst r)) (Py.split "," v)) /\
    (forall v, Args.urgency args = Some v -> v <> "" ->
               Issue.urgency (fst r) = v) /\
    (forall v, Args.machine_id args = Some v -> v <> "" ->
               Issue.machine_id (fst r) = v) /\
    (forall day, Args.date args = Some day ->
                 day <= Issue.created_at (fst r) < day + one_day) /\
    In (fst r) (issues st) /\
    exists m, In m (machines st) /\
              Machine.machine_id m = Issue.machine_id (fst r) /\
              snd r = Machine.name m.
Proof.
  intros args u st r Hr.
  pose proof (in_listing_join _ _ _ _ Hr) as Hj. apply join_machine_inv in Hj.
  apply in_listing_query in Hr.
  rewrite issues_query_selected in Hr. apply filter_In in Hr.
  destruct Hr as [_ Hsel]. unfold selected in Hsel.
  apply andb_true_iff in Hsel. destruct Hsel as [Hsel Hd].
  apply andb_true_iff in Hsel. destruct Hsel as [Hsel Hm].
  apply andb_true_iff in Hsel. destruct Hsel as [Hs Hu].
  split; [|split; [|split; [|split; [|exact Hj]]]].
  - intros v E Hv. rewrite E in Hs. unfold given in Hs.
    destruct (String.eqb_spec v ""); [contradiction|].
    destruct (Py.contains v ",") eqn:Ec.
    + now apply mem_In.
    + rewrite (split_no_separator _ Ec). left. symmetry.
      now apply String.eqb_eq.
  - intros v E Hv. rewrite E in Hu. unfold given in Hu.
    destruct (String.eqb_spec v ""); [contradiction|].
    now apply String.eqb_eq in Hu.
  - intros v E Hv. rewrite E in Hm. unfold given in Hm.
    destruct (String.eqb_spec v ""); [contradiction|].
    now apply String.eqb_eq in Hm.
  - intros day E. rewrite E in Hd. apply andb_true_iff in Hd.
    destruct Hd as [H1 H2]. apply Z.leb_le in H1. apply Z.ltb_lt in H2. lia.
Qed.

Lemma get_issues_filters_sample :
  let st := Sample.db [Sample.issue 1 "ISS001" "reported" None 0 None None;
                       Sample.issue 2 "ISS002" "assigned" (Some 2) 5 (Some 6) None;
                       Sample.issue 3 "ISS003" "closed" (Some 2) 7 (Some 8) (Some 9)] in
  let args := {| Args.status := Some "reported,closed"; Args.urgency := Some "";
                 Args.machine_id := None; Args.page := 1; Args.per_page := 10;
                 Args.date := None |} in
  map (fun r => Issue.issue_id (fst r)) (listing (get_issues args Sample.supervisor st)) =
    ["ISS003"; "ISS001"] /\
  Forall (fun r => In (Issue.status (fst r)) ["reported"; "closed"])
    (listing (get_issues args Sample.supervisor st)).
Proof.
  intros st args. split; [reflexivity|].
  apply Forall_forall. intros r Hr.
  destruct (get_issues_filters args Sample.supervisor st r Hr) as [H _].
  apply (H "reported,closed"); [reflexivity | discriminate].
Defined.

(** ** The technician rollup *)

Local Open Scope Q_scope.

(** X17.  For a caller who passes the role gate the technician rollup
    answers 200, writes nothing and has one row per active
    maintenance-service user, in table order and for no one else; in every
    row the closed count is at most the assigned count and the reported
    average is within 0.005 of that technician's computed average. *)
Theorem analytics_by_technician_rollup :
  forall caller st,
    authorize caller ["supervisor"; "team_leader"; "manager"; "maintenance"] = true ->
    exists rows,
      analytics_by_technician caller st = reply (technicians rows) 200%Z st /\
      map TechRow.technician rows =
        filter (fun u => String.eqb (User.service u) "maintenance" && User.is_active u)
          (users st) /\
      Forall
        (fun row =>
           (TechRow.closed_issues row <= TechRow.assigned_issues row)%nat /\
           Qabs (TechRow.avg_resolution_time_hours row -
                 avg_time st (TechRow.technician row)) <= 1 # 200)
        rows.
Proof.
  intros caller st Ha. unfold analytics_by_technician.
  rewrite (role_required_authorized _ _ _ _ Ha).
  eexists. split; [reflexivity|]. split.
  - rewrite map_map. simpl. apply map_id.
  - apply Forall_forall. intros row Hr. apply in_map_iff in Hr.
    destruct Hr as (tech & <- & _). simpl. split.
    + apply count_le. intros i H. apply andb_true_iff in H. apply H.
    + apply py_round2_close.
Qed.

Lemma analytics_by_technician_rollup_sample :
  let st := (Sample.db
               [Sample.issue 1 "ISS001" "closed" (Some 2) 0 (Some Sample.hour)
                  (Some (3 * Sample.hour)%Z)])%Z in
  exists rows,
    analytics_by_technician Sample.supervisor st = reply (technicians rows) 200%Z st /\
    map (fun row => User.user_id (TechRow.technician row)) rows =
      ["MNT001"; "MNT002"; "SUP001"].
Proof.
  intros st.
  destruct (analytics_by_technician_rollup Sample.supervisor st eq_refl)
    as (rows & E & Hm & _).
  exists rows. split; [exact E|].
  rewrite <- (map_map TechRow.technician User.user_id), Hm. reflexivity.
Defined.

(** ** Closing through the generic status update *)

Lemma filter_update_first_same {A : Type} (q p : A -> bool) (f : A -> A)
    (l : list A) (x : A) :
  find p l = Some x -> q x = false -> q (f x) = false ->
  filter q (update_first p f l) = filter q l.
Proof.
  induction l as [|y l IH]; simpl; [discriminate|].
  destruct (p y) eqn:E; intros H Hx Hfx.
  - injection H as ->. simpl. now rewrite Hx, Hfx.
  - simpl. destruct (q y); [f_equal|]; now apply IH.
Qed.

(** X18.  The generic status update stamps no [closed_at]: when it moves
    an issue that carries none to [closed] (or to any other status), the
    issue still does not enter the average resolution time, which the
    dashboard therefore computes as before the request. *)
Theorem status_update_keeps_average :
  forall now issue_id new_status u st issue,
    first_issue st issue_id = Some issue ->
    Issue.closed_at issue = None ->
    avg_resolution_time (store (update_issue_status now issue_id new_status u st)) =
    avg_resolution_time st.
Proof.
  intros now issue_id new_status u st issue Hfind Hc.
  unfold update_issue_status. rewrite Hfind.
  repeat match goal with
    | |- context [store (if ?b then _ else _)] => destruct b
    | |- context [store (match ?x with _ => _ end)] => destruct x
    end; try reflexivity.
  cbn [store]. unfold avg_resolution_time.
  cbn [add_note_row commit_issue with_notes with_issues issues].
  unfold first_issue in Hfind.
  rewrite (filter_update_first_same stamped_closed _ _ _ issue Hfind);
    [reflexivity | |]; unfold stamped_closed; simpl; rewrite Hc;
    apply andb_false_r.
Qed.

Lemma status_update_keeps_average_sample :
  let st := (Sample.db [Sample.issue 1 "ISS001" "assigned" (Some 2) 0%Z
                          (Some Sample.hour) None])%Z in
  let st' := store (update_issue_status (2 * Sample.hour)%Z "ISS001" (Some "closed")
                      Sample.supervisor st) in
  map Issue.status (issues st') = ["closed"] /\
  map Issue.closed_at (issues st') = [None] /\
  avg_resolution_time st' = 0.
Proof.
  intros st st'. split; [reflexivity|]. split; [reflexivity|].
  unfold st'.
  rewrite (status_update_keeps_average (2 * Sample.hour)%Z "ISS001" (Some "closed")
             Sample.supervisor st
             ((Sample.issue 1 "ISS001" "assigned" (Some 2) 0 (Some Sample.hour) None)%Z)
             eq_refl eq_refl).
  reflexivity.
Defined.

Local Close Scope Q_scope.

(** ** Renaming a machine *)

Lemma filter_on_key_length {A B : Type} (g : A -> B) (h : B -> bool) (l l' : list A) :
  map g l = map g l' ->
  List.length (filter (fun x => h (g x)) l) =
  List.length (filter (fun x => h (g x)) l').
Proof.
  revert l'. induction l as [|x l IH]; intros [|x' l'] E; try discriminate;
    [reflexivity|].
  simpl in E. injection E as Ex El. simpl. rewrite Ex.
  destruct (h (g x')); simpl; now rewrite (IH l' El).
Qed.

Lemma map_fst_const {A B C : Type} (i : A) (f : B -> C) (l l' : list B) :
  List.length l = List.length l' ->
  map fst (map (fun m => (i, f m)) l) = map fst (map (fun m => (i, f m)) l').
Proof.
  revert l'. induction l as [|x l IH]; intros [|x' l'] E; try discriminate;
    [reflexivity|].
  simpl. f_equal. apply IH. now injection E.
Qed.

Lemma join_machine_issues (st st' : Store) :
  issues st' = issues st ->
  map Machine.machine_id (machines st') = map Machine.machine_id (machines st) ->
  map fst (join_machine st') = map fst (join_machine st).
Proof.
  intros Ei Em. unfold join_machine. rewrite Ei. clear Ei.
  induction (issues st) as [|i l IH]; simpl; [reflexivity|].
  rewrite !map_app, IH. f_equal. apply map_fst_const.
  apply (filter_on_key_length Machine.machine_id
           (String.eqb (Issue.machine_id i))). exact Em.
Qed.

Lemma filter_same_issues (P : Issue.t -> bool) (l l' : list Row) :
  map fst l = map fst l' ->
  map fst (filter (fun r => P (fst r)) l) = map fst (filter (fun r => P (fst r)) l').
Proof.
  revert l'. induction l as [|x l IH]; intros [|x' l'] E; try discriminate;
    [reflexivity|].
  simpl in E. injection E as Ex El. simpl. rewrite Ex.
  destruct (P (fst x')); simpl; [rewrite Ex; f_equal|]; now apply IH.
Qed.

Lemma insert_row_same_issues (r r' : Row) (l l' : list Row) :
  fst r = fst r' -> map fst l = map fst l' ->
  map fst (insert_row r l) = map fst (insert_row r' l').
Proof.
  intros Er. revert l'. induction l as [|x l IH]; intros [|x' l'] E;
    try discriminate; simpl; [now rewrite Er|].
  simpl in E. injection E as Ex El. unfold row_before. rewrite Er, Ex.
  destruct (_ || _); simpl; rewrite ?Er, ?Ex; f_equal; [f_equal; exact El|].
  now apply IH.
Qed.

Lemma order_by_same_issues (l l' : list Row) :
  map fst l = map fst l' -> map fst (order_by l) = map fst (order_by l').
Proof.
  unfold order_by. revert l'.
  induction l as [|x l IH]; intros [|x' l'] E; try discriminate;
    [reflexivity|].
  simpl in E. injection E as Ex El. simpl.
  apply insert_row_same_issues; [exact Ex | now apply IH].
Qed.

Lemma listing_same_issues args caller (st st' : Store) :
  map fst (join_machine st') = map fst (join_machine st) ->
  map fst (listing (get_issues args caller st')) =
  map fst (listing (get_issues args caller st)).
Proof.
  intros E. rewrite !listing_get_issues.
  destruct (out_of_range (Args.page args) (Args.per_page args)); [reflexivity|].
  unfold paginate. rewrite <- !firstn_map, <- !skipn_map. do 2 f_equal.
  apply order_by_same_issues. rewrite !issues_query_selected.
  apply filter_same_issues. unfold role_filter.
  destruct (String.eqb (User.service caller) "production").
  - now apply (filter_same_issues
                 (fun i => Issue.reporter_id i =? User.id caller)).
  - now destruct (String.eqb (User.service caller) "maintenance").
Qed.

(** X19.  Updating a machine (name, location, status) never changes a
    machine id or an issue, whatever the answer: every listing, for every
    caller and query, shows the same issues in the same order after the
    request as before it. *)
Theorem update_machine_keeps_listed_issues :
  forall machine_id data u st args caller,
    let st' := snd (update_machine machine_id data u st) in
    issues st' = issues st /\
    map Machine.machine_id (machines st') = map Machine.machine_id (machines st) /\
    map fst (listing (get_issues args caller st')) =
    map fst (listing (get_issues args caller st)).
Proof.
  intros machine_id data u st args caller st'.
  assert (H : issues st' = issues st /\
              map Machine.machine_id (machines st') =
              map Machine.machine_id (machines st)).
  { subst st'. unfold update_machine, role_gate.
    destruct (_ && _); [split; reflexivity|].
    destruct (first_machine st machine_id); [|split; reflexivity].
    cbn [snd issues machines with_machines]. split; [reflexivity|].
    now apply map_update_first. }
  destruct H as [Hi Hm]. split; [exact Hi|]. split; [exact Hm|].
  now apply listing_same_issues, join_machine_issues.
Qed.

(** ** Accounts *)

Lemma same_value_sym (a b : option string) : same_value a b = same_value b a.
Proof. destruct a, b; simpl; try reflexivity. apply String.eqb_sym. Qed.

Lemma same_value_eq (a b : option string) :
  same_value a b = true -> exists v, a = Some v /\ b = Some v.
Proof.
  destruct a as [x|], b as [y|]; simpl; try discriminate.
  intros H. apply String.eqb_eq in H. subst. now exists y.
Qed.

Lemma existsb_false {A : Type} (p : A -> bool) (l : list A) (x : A) :
  existsb p l = false -> In x l -> p x = false.
Proof.
  intros H Hin. destruct (p x) eqn:E; [|reflexivity].
  assert (existsb p l = true) by (apply existsb_exists; now exists x).
  congruence.
Qed.

(** X20.  Registration creates only accounts whose service and role are of
    the two enumerations: a table of such accounts stays one.  A 201
    appends exactly the returned account, active, with the password stored
    as its hash; every other answer leaves the table as it was. *)
Theorem register_keeps_accounts_valid :
  forall now hashpw data table,
    accounts_valid table ->
    accounts_valid (snd (register now hashpw data table)) /\
    (snd (register now hashpw data table) = table \/
     exists a password,
       register now hashpw data table = ((inl a, 201), (table ++ [a])%list) /\
       User.is_active (Account.user a) = true /\
       Registration.password data = Some password /\
       Account.password_hash a = hashpw password /\
       Account.created_at a = now).
Proof.
  intros now hashpw data table Hv. unfold register.
  destruct (Registration.matricule_number data) as [matricule|]; [|now split; [|left]].
  destruct (Registration.name data) as [name|]; [|now split; [|left]].
  destruct (Registration.password data) as [password|]; [|now split; [|left]].
  destruct (Registration.service data) as [service|]; [|now split; [|left]].
  destruct (Registration.role data) as [role|]; [|now split; [|left]].
  cbv zeta.
  repeat match goal with
    | |- context [snd (if ?b then _ else _)] =>
        destruct b eqn:?; [now split; [|left]|]
    end.
  cbn [snd]. split.
  - unfold accounts_valid in *. rewrite forallb_app, Hv.
    cbn [forallb andb]. unfold account_ok.
    cbn [Account.user User.service User.role].
    repeat match goal with
      | H : negb _ = false |- _ => apply negb_false_iff in H; rewrite H
      end.
    reflexivity.
  - right. eexists. exists password. split; [reflexivity|]. repeat split.
Qed.

Lemma register_keeps_accounts_valid_sample :
  let data := {| Registration.user_id := None;
                 Registration.matricule_number := Some "PROD001";
                 Registration.name := Some "Production User";
                 Registration.password := Some "password";
                 Registration.service := Some "production";
                 Registration.role := Some "production";
                 Registration.email := None |} in
  accounts_valid (snd (register 0 (fun p => p) data [])) /\
  register 0 (fun p => p) data [] =
    ((inr "Invalid role. Must be one of: technician, team_leader, supervisor, manager",
      400), []).
Proof.
  intros data. split; [|reflexivity].
  apply (register_keeps_accounts_valid 0 (fun p => p) data []). reflexivity.
Defined.

(** X21.  The duplicate checks of registration (409) cover every unique
    column but one case: the commit can only fail (500) when the request
    gives the empty string as email and an account with the empty email
    exists; a user id or matricule number already in use, and a non-empty
    email already in use, are always answered 409. *)
Theorem register_internal_error_only_empty_email :
  forall now hashpw data table,
    snd (fst (register now hashpw data table)) = 500 ->
    Registration.email data = Some "" /\
    exists a, In a table /\ Account.email a = Some "".
Proof.
  intros now hashpw data table. unfold register.
  destruct (Registration.matricule_number data) as [matricule|]; [|simpl; discriminate].
  destruct (Registration.name data) as [name|]; [|simpl; discriminate].
  destruct (Registration.password data) as [password|]; [|simpl; discriminate].
  destruct (Registration.service data) as [service|]; [|simpl; discriminate].
  destruct (Registration.role data) as [role|]; [|simpl; discriminate].
  cbv zeta.
  match goal with
  | |- context [if ?b then ((inr "User ID already exists", _), _) else _] =>
      destruct b eqn:Hid; [simpl; discriminate|]
  end.
  match goal with
  | |- context [if ?b then ((inr "Matricule number already exists", _), _) else _] =>
      destruct b eqn:Hm; [simpl; discriminate|]
  end.
  match goal with
  | |- context [if ?b then ((inr "Email already exists", _), _) else _] =>
      destruct b eqn:He; [simpl; discriminate|]
  end.
  destruct (negb (Py.mem service valid_services)); [simpl; discriminate|].
  destruct (negb (Py.mem role valid_roles)); [simpl; discriminate|].
  match goal with
  | |- context [if ?b then ((inr "Internal server error", _), _) else _] =>
      destruct b eqn:Hc; [|simpl; discriminate]
  end.
  intros _. apply existsb_exists in Hc. destruct Hc as (a & Hin & Hc).
  unfold collide in Hc. cbn [Account.user User.user_id Account.matricule_number
                             Account.email] in Hc.
  pose proof (existsb_false _ _ a Hid Hin) as Hid'. cbv beta in Hid'.
  pose proof (existsb_false _ _ a Hm Hin) as Hm'. cbv beta in Hm'.
  rewrite String.eqb_sym, Hid', same_value_sym, Hm' in Hc. simpl in Hc.
  destruct (same_value_eq _ _ Hc) as (v & Ev & Ea).
  apply andb_false_iff in He. destruct He as [He | He].
  - rewrite Ev in He. simpl in He. apply negb_false_iff, String.eqb_eq in He.
    subst v. split; [exact Ev|]. now exists a.
  - pose proof (existsb_false _ _ a He Hin) as He'. cbv beta in He'.
    rewrite same_value_sym in He'. congruence.
Qed.

Lemma register_internal_error_only_empty_email_sample :
  let first := {| Registration.user_id := None;
                  Registration.matricule_number := Some "M1";
                  Registration.name := Some "A"; Registration.password := Some "a";
                  Registration.service := Some "maintenance";
                  Registration.role := Some "technician";
                  Registration.email := Some "" |} in
  let second := {| Registration.user_id := None;
                   Registration.matricule_number := Some "M2";
                   Registration.name := Some "B"; Registration.password := Some "b";
                   Registration.service := Some "maintenance";
                   Registration.role := Some "technician";
                   Registration.email := Some "" |} in
  let table := snd (register 0 (fun p => p) first []) in
  List.length table = 1%nat /\
  snd (fst (register 1 (fun p => p) second table)) = 500 /\
  Registration.email second = Some "".
Proof.
  intros first second table. split; [reflexivity|]. split; [reflexivity|].
  apply (register_internal_error_only_empty_email 1 (fun p => p) second table).
  reflexivity.
Defined.

Lemma or_keep_allowed (value : option string) (old : string) (allowed : list string) :
  given_invalid value allowed = false -> Py.mem old allowed = true ->
  Py.mem (or_keep value old) allowed = true.
Proof.
  destruct value as [v|]; simpl; [|auto].
  intros H _. now apply negb_false_iff in H.
Qed.

(** X22.  Updating a user keeps every account's service and role within
    the two enumerations and never touches a primary key, a user id, a
    password hash or a creation time, whatever the request and the answer;
    no account is added or removed. *)
Theorem update_user_keeps_accounts :
  forall user_id data u table,
    accounts_valid table ->
    let table' := snd (update_user user_id data u table) in
    accounts_valid table' /\
    map identity_of table' = map identity_of table.
Proof.
  intros user_id data u table Hv table'. subst table'.
  unfold update_user, role_gate.
  destruct (_ && _); [now split|].
  destruct (find _ table) as [user|]; [|now split].
  destruct (given_invalid (AccountUpdate.service data) valid_services) eqn:Hs;
    [now split|].
  destruct (given_invalid (AccountUpdate.role data) valid_roles) eqn:Hr;
    [now split|].
  repeat match goal with
    | |- context [snd (if ?b then _ else _)] => destruct b; [now split|]
    end.
  cbn [snd]. split.
  - unfold accounts_valid in *. apply forallb_update_first; [|exact Hv].
    intros a Ha. unfold account_ok in *. cbn [updated_account Account.user
      User.service User.role].
    apply andb_true_iff in Ha. destruct Ha as [Ha1 Ha2].
    now rewrite (or_keep_allowed _ _ _ Hs Ha1), (or_keep_allowed _ _ _ Hr Ha2).
  - now apply map_update_first.
Qed.

Lemma update_user_keeps_accounts_sample :
  let manager := {| User.id := 1; User.user_id := "ADMIN001";
                    User.name := "System Administrator";
                    User.service := "maintenance"; User.role := "manager";
                    User.is_active := true |} in
  let admin := {| Account.user := manager; Account.matricule_number := Some "ADM001";
                  Account.email := Some "admin@example.com";
                  Account.password_hash := "hash"; Account.created_at := 0 |} in
  let data := {| AccountUpdate.name := None; AccountUpdate.service := None;
                 AccountUpdate.role := Some "production";
                 AccountUpdate.email := None;
                 AccountUpdate.matricule_number := None;
                 AccountUpdate.is_active := Some false |} in
  accounts_valid (snd (update_user "ADMIN001" data manager [admin])) /\
  fst (update_user "ADMIN001" data manager [admin]) = (inr "Invalid role", 400).
Proof.
  intros manager admin data. split; [|reflexivity].
  apply (update_user_keeps_accounts "ADMIN001" data manager [admin]). reflexivity.
Defined.

(** ** Rollup by machine *)

Lemma key_eqb_eq (a b : string * string) : key_eqb a b = true <-> a = b.
Proof.
  destruct a as [a1 a2], b as [b1 b2]. unfold key_eqb. simpl.
  rewrite andb_true_iff, !String.eqb_eq. split; [intros [-> ->] | intros [= -> ->]]; auto.
Qed.

Lemma key_eqb_refl (a : string * string) : key_eqb a a = true.
Proof. now apply key_eqb_eq. Qed.

Lemma in_groups (k : string * string) (keys : list (string * string)) :
  In k (groups keys) <-> In k keys.
Proof.
  induction keys as [|x keys IH]; simpl; [tauto|].
  rewrite filter_In, IH. split.
  - intros [-> | [H _]]; auto.
  - intros [-> | H]; [now left|].
    destruct (key_eqb x k) eqn:E; [apply key_eqb_eq in E; now left|].
    right. now split.
Qed.

Lemma occurrences_without (x k : string * string) (l : list (string * string)) :
  key_eqb x k = false ->
  fold_right Nat.add 0%nat
    (map (fun g => if key_eqb g k then 1%nat else 0%nat)
       (filter (fun k' => negb (key_eqb x k')) l)) =
  fold_right Nat.add 0%nat
    (map (fun g => if key_eqb g k then 1%nat else 0%nat) l).
Proof.
  intros E. induction l as [|g gs IH]; simpl; [reflexivity|].
  destruct (key_eqb x g) eqn:Exg; simpl.
  - apply key_eqb_eq in Exg. rewrite <- Exg, E. exact IH.
  - now rewrite IH.
Qed.

Lemma occurrences_absent (k : string * string) (l : list (string * string)) :
  ~ In k l ->
  fold_right Nat.add 0%nat
    (map (fun g => if key_eqb g k then 1%nat else 0%nat) l) = 0%nat.
Proof.
  induction l as [|x l IH]; simpl; [reflexivity|]. intros H.
  destruct (key_eqb x k) eqn:E; [apply key_eqb_eq in E; tauto|].
  apply IH. tauto.
Qed.

(** How often a key occurs among the groups: once when it is a key of the
    list. *)
Lemma groups_once (k : string * string) (keys : list (string * string)) :
  In k keys ->
  fold_right Nat.add 0%nat
    (map (fun g => if key_eqb g k then 1%nat else 0%nat) (groups keys)) = 1%nat.
Proof.
  induction keys as [|x keys IH]; simpl; [contradiction|]. intros Hin.
  destruct (key_eqb x k) eqn:E.
  - apply key_eqb_eq in E. subst x. rewrite occurrences_absent; [reflexivity|].
    intros H. apply filter_In in H. destruct H as [_ H].
    now rewrite key_eqb_refl in H.
  - destruct Hin as [Hx | Hin]; [subst x; now rewrite key_eqb_refl in E|].
    simpl. rewrite (occurrences_without _ _ _ E). now apply IH.
Qed.

Lemma sum_of_counts (gs : list (string * string)) (query : list Row) :
  (forall r, In r query ->
     fold_right Nat.add 0%nat
       (map (fun g => if key_eqb g (key_of r) then 1%nat else 0%nat) gs) = 1%nat) ->
  fold_right Nat.add 0%nat
    (map (fun g => count (fun r => key_eqb g (key_of r)) query) gs) =
  List.length query.
Proof.
  induction query as [|r query IH]; intros H.
  - unfold count. simpl. clear H. induction gs; simpl; auto.
  - assert (E : fold_right Nat.add 0%nat
                  (map (fun g => count (fun r => key_eqb g (key_of r)) (r :: query)) gs) =
                (fold_right Nat.add 0%nat
                   (map (fun g => if key_eqb g (key_of r) then 1%nat else 0%nat) gs) +
                 fold_right Nat.add 0%nat
                   (map (fun g => count (fun r => key_eqb g (key_of r)) query) gs))%nat).
    { clear. induction gs as [|g gs IHg]; simpl; [reflexivity|].
      rewrite IHg. unfold count. simpl.
      destruct (key_eqb g (key_of r)); simpl; lia. }
    rewrite E, (H r (or_introl eq_refl)), (IH (fun r' Hr' => H r' (or_intror Hr'))).
    reflexivity.
Qed.

Lemma insert_machine_row_total (x : MachineRow.t) (l : list MachineRow.t) :
  total_of (insert_machine_row x l) = (MachineRow.total_issues x + total_of l)%nat.
Proof.
  unfold total_of. induction l as [|y l IH]; simpl; [reflexivity|].
  destruct (_ <=? _)%nat; simpl; [reflexivity|]. rewrite IH. lia.
Qed.

Lemma in_insert_machine_row (z x : MachineRow.t) (l : list MachineRow.t) :
  In z (insert_machine_row x l) <-> z = x \/ In z l.
Proof.
  induction l as [|y l IH]; simpl; [intuition auto|].
  destruct (_ <=? _)%nat; simpl; rewrite ?IH; intuition auto.
Qed.

Lemma insert_machine_row_sorted (x : MachineRow.t) (l : list MachineRow.t) :
  StronglySorted
    (fun a b => (MachineRow.total_issues b <= MachineRow.total_issues a)%nat) l ->
  StronglySorted
    (fun a b => (MachineRow.total_issues b <= MachineRow.total_issues a)%nat)
    (insert_machine_row x l).
Proof.
  induction 1 as [|y l Hl IH Hy]; simpl.
  - repeat constructor.
  - destruct (MachineRow.total_issues y <=? MachineRow.total_issues x)%nat eqn:E.
    + apply Nat.leb_le in E. constructor; [now constructor|].
      constructor; [exact E|].
      eapply Forall_impl; [|exact Hy]. intros z Hz. simpl in *. lia.
    + apply Nat.leb_gt in E. constructor; [exact IH|].
      apply Forall_forall. intros z Hz. apply in_insert_machine_row in Hz.
      destruct Hz as [-> | Hz]; [lia|].
      rewrite Forall_forall in Hy. now apply Hy.
Qed.

Lemma count_pos {A : Type} (p : A -> bool) (l : list A) (x : A) :
  In x l -> p x = true -> (1 <= count p l)%nat.
Proof.
  unfold count. induction l as [|y l IH]; simpl; [contradiction|].
  intros [-> | H] Hp; [rewrite Hp; simpl; lia|].
  destruct (p y); simpl; [lia | auto].
Qed.

(** X23.  For a caller who passes the role gate the machine rollup answers
    200 and writes nothing.  Its totals add up to the number of rows of
    the issue-machine join, so each issue of a registered machine is
    counted in exactly one row and issues of unknown machines in none;
    every row counts at least one issue, its closed and high-urgency
    counts are at most its total, and the rows come by total, largest
    first. *)
Theorem analytics_by_machine_counts :
  forall caller st,
    authorize caller ["supervisor"; "team_leader"; "manager"; "maintenance"] = true ->
    exists rows,
      analytics_by_machine caller st = ((inl rows, 200), st) /\
      total_of rows = List.length (join_machine st) /\
      Forall
        (fun row =>
           (1 <= MachineRow.total_issues row)%nat /\
           (MachineRow.closed_issues row <= MachineRow.total_issues row)%nat /\
           (MachineRow.high_urgency_issues row <= MachineRow.total_issues row)%nat)
        rows /\
      StronglySorted
        (fun a b => (MachineRow.total_issues b <= MachineRow.total_issues a)%nat)
        rows.
Proof.
  intros caller st Ha. unfold analytics_by_machine.
  rewrite (role_gate_authorized _ _ _ _ Ha). cbv zeta.
  eexists. split; [reflexivity|].
  set (query := join_machine st).
  set (gs := groups (map key_of query)).
  split; [|split].
  - assert (E : forall l, total_of (fold_right insert_machine_row [] l) = total_of l).
    { induction l as [|x l IH]; simpl; [reflexivity|].
      rewrite insert_machine_row_total, IH. reflexivity. }
    rewrite E. unfold total_of. rewrite map_map. cbn [machine_row MachineRow.total_issues].
    apply sum_of_counts. intros r Hr. apply groups_once. now apply in_map.
  - assert (E : forall l (P : MachineRow.t -> Prop),
              Forall P l -> Forall P (fold_right insert_machine_row [] l)).
    { intros l P H. apply Forall_forall. intros z Hz.
      rewrite Forall_forall in H. apply H. clear H.
      induction l as [|x l IH]; simpl in Hz; [contradiction|].
      apply in_insert_machine_row in Hz. destruct Hz as [-> | Hz]; [now left|].
      right. now apply IH. }
    apply E. apply Forall_forall. intros row Hr. apply in_map_iff in Hr.
    destruct Hr as (k & <- & Hk). cbn [machine_row MachineRow.total_issues
      MachineRow.closed_issues MachineRow.high_urgency_issues].
    split; [|split].
    + apply in_groups, in_map_iff in Hk. destruct Hk as (r & <- & Hr).
      apply (count_pos _ _ r Hr). apply key_eqb_refl.
    + apply count_le. intros r H. apply andb_true_iff in H. apply H.
    + apply count_le. intros r H. apply andb_true_iff in H. apply H.
  - induction (map (machine_row query) gs) as [|x l IH]; simpl; [constructor|].
    now apply insert_machine_row_sorted.
Qed.

Lemma analytics_by_machine_counts_sample :
  let lathe := {| Machine.id := 2; Machine.machine_id := "MACH002";
                  Machine.name := "Lathe"; Machine.location := None;
                  Machine.status := "active" |} in
  let on_lathe := {| Issue.id := 3; Issue.issue_id := "ISS003";
                     Issue.machine_id := "MACH002"; Issue.description := "Noise";
                     Issue.urgency := "low"; Issue.status := "closed";
                     Issue.reporter_id := 4; Issue.assigned_tech_id := None;
                     Issue.created_at := 0; Issue.accepted_at := None;
                     Issue.closed_at := None; Issue.resolution := None;
                     Issue.problem_description := None |} in
  let st := with_machines [Sample.press; lathe]
              (Sample.db [on_lathe;
                          Sample.issue 1 "ISS001" "reported" None 0 None None;
                          Sample.issue 2 "ISS002" "closed" None 0 None None]) in
  exists rows,
    analytics_by_machine Sample.supervisor st = ((inl rows, 200), st) /\
    map (fun row => (MachineRow.machine_id row, MachineRow.total_issues row,
                     MachineRow.closed_issues row)) rows =
      [("MACH001", 2%nat, 1%nat); ("MACH002", 1%nat, 1%nat)].
Proof.
  intros lathe on_lathe st.
  destruct (analytics_by_machine_counts Sample.supervisor st eq_refl)
    as (rows & E & _).
  exists rows. split; [exact E|].
  unfold analytics_by_machine in E. rewrite role_gate_authorized in E by reflexivity.
  injection E as <-. reflexivity.
Defined.

(** ** Profiles *)

(** The answer of a successful [update_user] is the updated account, email
    included, whoever of the managers asked. *)
Lemma update_user_answers_with_email user_id data u table a table' :
  update_user user_id data u table = ((inl a, 200), table') ->
  exists target,
    In target table /\ User.user_id (Account.user target) = user_id /\
    a = updated_account data target /\
    Account.email a = or_keep (AccountUpdate.email data) (Account.email target).
Proof.
  unfold update_user, role_gate.
  destruct (negb _ && negb _); [discriminate|].
  destruct (find _ table) as [target|] eqn:E; [|discriminate].
  repeat match goal with
    | |- context [if ?b then _ else _] => destruct b; [discriminate|]
    end.
  intros H. injection H as <- _. apply find_some in E. destruct E as [Hin E].
  apply String.eqb_eq in E. exists target. repeat split; assumption.
Qed.

(** X24.  What the two read endpoints of the user table disclose.
    [get_user] answers with the account of the id asked for, and the email
    key is in the answer exactly when the caller's user id is that id;
    [get_users] answers with the active accounts, all of them, in table
    order, and the email key is in none.  ([update_user] is not a read
    endpoint: its answer carries the email of the account a manager
    updated.) *)
Theorem profiles_disclose_email_to_owner :
  forall user_id current_user table,
    (forall p, fst (get_user user_id current_user table) = inl p ->
       User.user_id (Profile.user p) = user_id /\
       (Profile.email p <> None <-> User.user_id current_user = user_id)) /\
    (exists ps,
       get_users current_user table = (inl ps, 200) /\
       Forall (fun p => Profile.email p = None) ps /\
       map Profile.user ps =
         filter User.is_active (map Account.user table)).
Proof.
  intros user_id current_user table. split.
  - intros p. unfold get_user.
    destruct (find _ table) as [a|] eqn:E; [|discriminate].
    cbn [fst]. intros H. injection H as <-. apply find_some in E.
    destruct E as [_ E]. apply String.eqb_eq in E. split; [exact E|].
    unfold to_dict. cbn [Profile.email].
    destruct (String.eqb_spec (User.user_id current_user) user_id); split;
      intros H; try discriminate; try assumption; contradiction.
  - eexists. split; [reflexivity|]. split.
    + apply Forall_forall. intros p Hp. apply in_map_iff in Hp.
      now destruct Hp as (a & <- & _).
    + rewrite map_map. cbn [to_dict Profile.user].
      induction table as [|a table IH]; simpl; [reflexivity|].
      destruct (User.is_active (Account.user a)); simpl; now rewrite IH.
Qed.

(** ** Authentication *)


(** A header of one word has no token; a deactivated account is refused
    with a token that is still valid. *)
Example token_required_edge_cases :
  let decode := fun _ : string => token_of "MNT001" in
  let deny := fun (msg : string) (code : Z) => (@inr User.t string msg, code) in
  let account active :=
    {| Account.user :=
         {| User.id := 2; User.user_id := "MNT001"; User.name := "Maintenance Tech";
            User.service := "maintenance"; User.role := "technician";
            User.is_active := active |};
       Account.matricule_number := Some "MNT001"; Account.email := None;
       Account.password_hash := "hash"; Account.created_at := 0 |} in
  token_required decode deny [account true] (Some "Bearer") (fun u => (inl u, 200)) =
    (inr "Invalid token format", 401) /\
  token_required decode deny [account true] (Some "Bearer ") (fun u => (inl u, 200)) =
    (inr "Token is missing", 401) /\
  token_required decode deny [account false] (Some "Bearer abc") (fun u => (inl u, 200)) =
    (inr "Invalid user", 401) /\
  snd (token_required decode deny [account true] (Some "Bearer abc")
         (fun u => (inl u, 200))) = 200.
Proof. repeat split. Qed.
